(** * docext: the document-to-markdown conversion pipeline

    A shallow embedding of [docext/app/pdf2md.py] (the tag sanitizer
    [process_tags], the VLLM driver [process_images_to_markdown_stream] and
    the orchestrator [process_uploaded_files_to_markdown]) and of the hosted
    OCR client of [docext/core/client.py], with the properties of the
    pipeline stated over it.

    Python [str] values are modelled as [string], the UTF-8 encoding of the
    text.  Every token the code searches for is ASCII, so searching and
    replacing on the encoding agrees with searching and replacing on code
    points. *)

From Stdlib Require Import String Ascii List Arith Lia Bool ZArith DecimalString.
Import ListNotations.
Local Open Scope list_scope.
Local Open Scope string_scope.

(** ** Python string operations *)

Module PyStr.

(** [sub in s] *)
Fixpoint contains (sub s : string) : bool :=
  prefix sub s ||
  match s with
  | EmptyString => false
  | String _ s' => contains sub s'
  end.

(** [s[n:]] *)
Fixpoint drop (n : nat) (s : string) : string :=
  match n, s with
  | O, _ => s
  | S _, EmptyString => EmptyString
  | S k, String _ s' => drop k s'
  end.

(** The scan of [str.replace] for a non-empty pattern: left to right, the
    leftmost occurrence is replaced and the scan resumes after it.  [skip]
    counts the characters of a matched occurrence still to be passed over. *)
Fixpoint replace_from (skip : nat) (old new s : string) : string :=
  match s with
  | EmptyString => EmptyString
  | String c s' =>
      match skip with
      | S k => replace_from k old new s'
      | O =>
          if prefix old s
          then new ++ replace_from (String.length old - 1) old new s'
          else String c (replace_from 0 old new s')
      end
  end.

(** With an empty pattern [str.replace] puts [new] before every character
    and at the end. *)
Fixpoint intersperse (new s : string) : string :=
  match s with
  | EmptyString => new
  | String c s' => new ++ String c (intersperse new s')
  end.

(** [s.replace(old, new)] *)
Definition replace (old new s : string) : string :=
  match old with
  | EmptyString => intersperse new s
  | String _ _ => replace_from 0 old new s
  end.

(** The scan of [str.count] for a non-empty pattern: occurrences that do not
    overlap, leftmost first. *)
Fixpoint count_from (skip : nat) (sub s : string) : nat :=
  match s with
  | EmptyString => 0
  | String _ s' =>
      match skip with
      | S k => count_from k sub s'
      | O =>
          if prefix sub s
          then S (count_from (String.length sub - 1) sub s')
          else count_from 0 sub s'
      end
  end.

(** [s.count(sub)] *)
Definition count (sub s : string) : nat :=
  match sub with
  | EmptyString => S (String.length s)
  | String _ _ => count_from 0 sub s
  end.

(** The scan of [str.split] for a non-empty separator; [cur] is the piece
    being read. *)
Fixpoint split_from (skip : nat) (sep cur s : string) : list string :=
  match s with
  | EmptyString => [cur]
  | String c s' =>
      match skip with
      | S k => split_from k sep cur s'
      | O =>
          if prefix sep s
          then cur :: split_from (String.length sep - 1) sep EmptyString s'
          else split_from 0 sep (cur ++ String c EmptyString) s'
      end
  end.

(** [s.split(sep)] for a non-empty [sep] (Python raises [ValueError] on an
    empty separator; the code only splits on literals). *)
Definition split (sep s : string) : list string :=
  split_from 0 sep EmptyString s.

(** [sep.join(l)] *)
Fixpoint join (sep : string) (l : list string) : string :=
  match l with
  | [] => EmptyString
  | [x] => x
  | x :: rest => x ++ sep ++ join sep rest
  end.

(** [str(n)] for a non-negative [int] *)
Definition str_of_nat (n : nat) : string :=
  NilEmpty.string_of_uint (Nat.to_uint n).

(** [s[:n]] *)
Definition take (n : nat) (s : string) : string := substring 0 n s.

(** The index after the last occurrence of [c] in [s], [0] when there is
    none: [s.rfind(c) + 1]. *)
Fixpoint rfind_succ (c : ascii) (s : string) : nat :=
  match s with
  | EmptyString => 0
  | String a s' =>
      match rfind_succ c s' with
      | O => if Ascii.eqb a c then 1 else 0
      | S k => S (S k)
      end
  end.

(** [s.lower()] on ASCII letters *)
Definition lower_ascii (c : ascii) : ascii :=
  let n := nat_of_ascii c in
  if ((65 <=? n)%nat && (n <=? 90)%nat)%bool then ascii_of_nat (n + 32) else c.

Fixpoint lower (s : string) : string :=
  match s with
  | EmptyString => EmptyString
  | String c s' => String (lower_ascii c) (lower s')
  end.

Fixpoint all_chars (p : ascii -> bool) (s : string) : bool :=
  match s with
  | EmptyString => true
  | String c s' => p c && all_chars p s'
  end.

End PyStr.

(** The line feed of the Python literals. *)
Definition nl : string := String (ascii_of_nat 10) EmptyString.

(** ** The tag sanitizer (pdf2md.py, [process_tags]) *)

Definition process_tags (content : string) : string :=
  let content := PyStr.replace "<img>" "&lt;img&gt;" content in
  let content := PyStr.replace "</img>" "&lt;/img&gt;" content in
  let content := PyStr.replace "<watermark>" "&lt;watermark&gt;" content in
  let content := PyStr.replace "</watermark>" "&lt;/watermark&gt;" content in
  let content := PyStr.replace "<page_number>" "&lt;page_number&gt;" content in
  let content := PyStr.replace "</page_number>" "&lt;/page_number&gt;" content in
  let content := PyStr.replace "<signature>" "&lt;signature&gt;" content in
  let content := PyStr.replace "</signature>" "&lt;/signature&gt;" content in
  content.

(** The eight raw tokens the sanitizer escapes. *)
Definition raw_tokens : list string :=
  [ "<img>"; "</img>"; "<watermark>"; "</watermark>";
    "<page_number>"; "</page_number>"; "<signature>"; "</signature>" ].

(** ** Exceptions, fragments and observable events *)

(** A Python exception of class [Exception] or below: its class name and
    [str(e)].  [KeyboardInterrupt] and the like, which [except Exception]
    lets through, are outside the model. *)
Record Exception := mkException { exn_class : string; exn_str : string }.

Definition ValueError (msg : string) : Exception := mkException "ValueError" msg.
Definition FileNotFoundError (msg : string) : Exception :=
  mkException "FileNotFoundError" msg.

(** The [yield] statements of pdf2md.py, by place.  The orchestrator hands
    the consumer plain strings; the place a string was yielded at is kept
    beside it so that the kinds of fragment can be told apart. *)
Inductive Site : Set :=
| NoFilesMessage        (* line 136 *)
| ClientInitWarning     (* line 149 *)
| MistralAttempt        (* line 163 *)
| MistralPage           (* lines 175 and 177 *)
| MistralError          (* line 182 *)
| VllmNotice            (* line 187 *)
| RasterEmpty           (* line 194 *)
| VllmChunk             (* lines 121 and 123, forwarded at 201 *)
| VllmStreamError       (* line 132, forwarded at 201 *)
| VllmFallbackError     (* line 204 *)
| FileComplete.         (* line 206 *)

Definition Site_eqb (a b : Site) : bool :=
  match a, b with
  | NoFilesMessage, NoFilesMessage | ClientInitWarning, ClientInitWarning
  | MistralAttempt, MistralAttempt | MistralPage, MistralPage
  | MistralError, MistralError | VllmNotice, VllmNotice
  | RasterEmpty, RasterEmpty | VllmChunk, VllmChunk
  | VllmStreamError, VllmStreamError | VllmFallbackError, VllmFallbackError
  | FileComplete, FileComplete => true
  | _, _ => false
  end.

Record Fragment := mkFragment { site : Site; text : string }.

(** What a run does that can be seen from outside: the fragments it yields
    and the calls it makes to the backends and the rasterizer, each call with
    what it returned or raised. *)
Inductive Event :=
| Yield (f : Fragment)
| Call_MistralOCRClient (raised : option Exception)
| Call_extract_text_from_file (file_path : string) (r : Exception + string)
| Call_convert_files_to_images
    (file_paths : list string) (max_img_size : Z) (r : Exception + list string)
| Call_process_images_to_markdown_stream
    (images_list : list string) (request_id_prefix : string)
| Call_convert_to_markdown_stream
    (images_list : list string) (chunks : list string) (raised : option Exception).

(** The settings [pdf_to_markdown_ui] closes over. *)
Record Config := mkConfig {
  model_name : string;
  max_img_size : Z;
  concurrency_limit : Z;
  max_gen_tokens : Z
}.

(** An uploaded file: the code reads [file_obj.name] only. *)
Record File := mkFile { name : string }.

(** The request [MistralOCRClient] sends to [client.ocr.process]. *)
Record OCRRequest := mkOCRRequest {
  ocr_model : string;
  document_type : string;
  document_key : string;
  document_url : string;
  include_image_base64 : bool
}.

(** ** Generators over an outside world *)

Section Pipeline.

Context {World Handle : Type}.

(** The collaborators the code calls and does not define: the process
    environment, [uuid.uuid4], the file system, [mimetypes], [base64], the
    Mistral SDK, the rasterizer [docext.core.utils.convert_files_to_images]
    and the conversion routine
    [docext.core.pdf2md.pdf2md.convert_to_markdown_stream].  A call takes the
    world it is made in and gives back the world after it.  The conversion
    routine is a generator; what it gives is the finite list of chunks it
    yields and the exception, if any, that ends it. *)
Record Env := mkEnv {
  os_getenv : string -> World -> option string;
  uuid4 : World -> string * World;
  Mistral : string -> World -> (Exception + Handle) * World;
  os_path_exists : string -> World -> bool;
  read_file : string -> World -> (Exception + string) * World;
  b64encode : string -> string;
  guess_type : string -> option string;
  ocr_process : Handle -> OCRRequest -> World -> (Exception + list string) * World;
  convert_files_to_images :
    list string -> Z -> World -> (Exception + list string) * World;
  convert_to_markdown_stream :
    list string -> Config -> World -> (list string * option Exception) * World
}.

(** The result of running a generator to its end. *)
Record Run (A : Type) := mkRun {
  trace : list Event;
  world : World;
  outcome : Exception + A
}.
Arguments mkRun {A}.
Arguments trace {A}.
Arguments world {A}.
Arguments outcome {A}.

Definition Gen (A : Type) : Type := World -> Run A.

Definition ret {A} (a : A) : Gen A := fun w => mkRun [] w (inr a).

Definition raise {A} (e : Exception) : Gen A := fun w => mkRun [] w (inl e).

Definition bind {A B} (m : Gen A) (k : A -> Gen B) : Gen B :=
  fun w =>
    let r := m w in
    match outcome r with
    | inl e => mkRun (trace r) (world r) (inl e)
    | inr a =>
        let r' := k a (world r) in
        mkRun (trace r ++ trace r')%list (world r') (outcome r')
    end.

(** [try: m  except Exception as e: h e] *)
Definition try_except {A} (m : Gen A) (h : Exception -> Gen A) : Gen A :=
  fun w =>
    let r := m w in
    match outcome r with
    | inl e =>
        let r' := h e (world r) in
        mkRun (trace r ++ trace r')%list (world r') (outcome r')
    | inr a => r
    end.

Definition emit (ev : Event) : Gen unit := fun w => mkRun [ev] w (inr tt).

(** [yield s], at the place [k] *)
Definition yield (k : Site) (s : string) : Gen unit := emit (Yield (mkFragment k s)).

(** A call to a collaborator that may raise. *)
Definition oracle {A} (f : World -> (Exception + A) * World) : Gen A :=
  fun w => let '(r, w') := f w in mkRun [] w' r.

(** A call to a collaborator that does not raise. *)
Definition call {A} (f : World -> A * World) : Gen A :=
  fun w => let '(a, w') := f w in mkRun [] w' (inr a).

(** A read of the world. *)
Definition ask {A} (f : World -> A) : Gen A := fun w => mkRun [] w (inr (f w)).

(** Run [m] and record how it ended. *)
Definition observed {A} (ev : Exception + A -> Event) (m : Gen A) : Gen A :=
  fun w => let r := m w in mkRun (trace r ++ [ev (outcome r)])%list (world r) (outcome r).

(** [for x in l: body x] *)
Fixpoint for_each {A} (l : list A) (body : A -> Gen unit) : Gen unit :=
  match l with
  | [] => ret tt
  | x :: rest => bind (body x) (fun _ => for_each rest body)
  end.

(** [for x in l: body], where the body updates a local variable *)
Fixpoint for_each_with {A S} (l : list A) (s : S) (body : S -> A -> Gen S) : Gen S :=
  match l with
  | [] => ret s
  | x :: rest => bind (body s x) (fun s' => for_each_with rest s' body)
  end.

(** [for x in g: yield x]: the fragments of [g] go to the consumer as they
    are. *)
Definition yield_from (g : Gen unit) : Gen unit := g.

End Pipeline.

Arguments Env : clear implicits.
Arguments Gen : clear implicits.
Arguments Run : clear implicits.
Arguments mkRun {World A}.
Arguments trace {World A}.
Arguments world {World A}.
Arguments outcome {World A}.

Declare Scope gen_scope.
Delimit Scope gen_scope with gen.
Notation "x <- m ;; k" := (bind m (fun x => k))
  (at level 61, m at next level, right associativity) : gen_scope.
Notation "m ;; k" := (bind m (fun _ => k))
  (at level 61, right associativity) : gen_scope.

(** ** Paths ([os.path]) *)

(** [os.path.basename(p)]: what follows the last slash. *)
Definition basename (p : string) : string :=
  PyStr.drop (PyStr.rfind_succ "/" p) p.

(** [os.path.splitext(p)[1]]: the extension, from the last dot of the
    basename, unless only dots come before it. *)
Definition splitext_ext (p : string) : string :=
  let b := basename p in
  match PyStr.rfind_succ "." b with
  | O => EmptyString
  | S d =>
      if PyStr.all_chars (Ascii.eqb ".") (PyStr.take d b)
      then EmptyString
      else PyStr.drop d b
  end.

(** The separator between pages: ["\n\n---\n\n"]. *)
Definition page_separator : string := nl ++ nl ++ "---" ++ nl ++ nl.

(** ["\n\n*****\n\n"] *)
Definition file_separator : string := nl ++ nl ++ "*****" ++ nl ++ nl.

(** Truth of [str | None] in a condition. *)
Definition truthy (s : option string) : bool :=
  match s with
  | Some (String _ _) => true
  | _ => false
  end.

(** ** The f-strings of pdf2md.py *)

Module Msg.

Definition no_files : string :=
  "No files uploaded. Please upload one or more documents.".

Definition client_init_warning (e : Exception) : string :=
  "⚠️ **Warning**: Could not initialize Mistral OCR client: " ++ exn_str e ++
  ". Falling back to default processing." ++ page_separator.

Definition mistral_attempt (file_path : string) : string :=
  "⏳ Attempting Mistral OCR for " ++ basename file_path ++ "..." ++ page_separator.

Definition mistral_page_header (file_path : string) (i num_pages : nat) : string :=
  "📄 **Mistral OCR Output** `[File " ++ basename file_path ++ "]` (Page " ++
  PyStr.str_of_nat (i + 1) ++ " of " ++ PyStr.str_of_nat num_pages ++ ")" ++ nl ++ nl.

Definition mistral_error (file_path : string) (e : Exception) : string :=
  "⚠️ **Mistral OCR Error for " ++ basename file_path ++ "**: " ++ exn_str e ++
  ". Falling back to VLLM." ++ page_separator.

Definition vllm_notice (file_path : string) : string :=
  "⏳ Using default VLLM model for " ++ basename file_path ++
  " (converting to images first)..." ++ page_separator.

Definition raster_empty (file_path : string) : string :=
  "⚠️ Could not convert " ++ basename file_path ++
  " to images for VLLM processing." ++ page_separator.

Definition vllm_fallback_error (file_path : string) (e : Exception) : string :=
  "❌ **Error in VLLM fallback for " ++ basename file_path ++ "**: " ++ exn_str e ++
  page_separator.

Definition file_complete (file_path : string) : string :=
  "✅ Finished processing " ++ basename file_path ++ "." ++ file_separator.

Definition progress_header (request_id : string) (page num_pages : nat) : string :=
  "📄 **VLLM Conversion Progress** `[Request " ++ request_id ++
  "]` (Processing page " ++ PyStr.str_of_nat page ++ " of " ++
  PyStr.str_of_nat num_pages ++ ")" ++ nl ++ nl.

Definition vllm_stream_error (request_id : string) (e : Exception) : string :=
  "❌ **Error in VLLM processing (Request " ++ request_id ++ ")**: " ++ exn_str e.

End Msg.

(** ** The code *)

Section Code.

Context {World Handle : Type}.
Variable env : Env World Handle.
Variable cfg : Config.

Local Open Scope gen_scope.

(** *** client.py, [class MistralOCRClient] *)

Record MistralOCRClient := mkClient { api_key : string; client : Handle }.

(** [MistralOCRClient.__init__] *)
Definition MistralOCRClient_init : Gen World MistralOCRClient :=
  key <- ask (os_getenv env "MISTRAL_API_KEY") ;;
  if negb (truthy key)
  then raise (ValueError
    "MISTRAL_API_KEY environment variable not set (or not found in .env file).")
  else
    let key := match key with Some k => k | None => EmptyString end in
    h <- oracle (Mistral env key) ;;
    ret (mkClient key h).

(** [MistralOCRClient._encode_file_to_base64]: both handlers print and
    re-raise. *)
Definition _encode_file_to_base64 (file_path : string) : Gen World string :=
  try_except
    (data <- oracle (read_file env file_path) ;;
     ret (b64encode env data))
    (fun e => raise e).

(** [MistralOCRClient.extract_text_from_file] *)
Definition extract_text_from_file
    (self : MistralOCRClient) (file_path : string) : Gen World string :=
  found <- ask (os_path_exists env file_path) ;;
  if negb found
  then raise (FileNotFoundError ("File not found: " ++ file_path))
  else
    base64_encoded_file <- _encode_file_to_base64 file_path ;;
    mime_type <-
      (let guessed := guess_type env file_path in
       if truthy guessed
       then ret (match guessed with Some m => m | None => EmptyString end)
       else
         let ext := PyStr.lower (splitext_ext file_path) in
         if String.eqb ext ".pdf" then ret "application/pdf"
         else if existsb (String.eqb ext) [".png"; ".jpg"; ".jpeg"; ".avif"; ".webp"]
         then ret ("image/" ++ PyStr.drop 1 ext)
         else raise (ValueError
                ("Could not determine MIME type for file: " ++ file_path))) ;;
    doc <-
      (if String.eqb mime_type "application/pdf"
       then ret ("data:application/pdf;base64,", "document_url")
       else if prefix "image/" mime_type
       then ret ("data:" ++ mime_type ++ ";base64,", "image_url")
       else raise (ValueError
              ("Unsupported MIME type: " ++ mime_type ++ " for file: " ++ file_path))) ;;
    let '(document_type_prefix, doc_input_type) := doc in
    try_except
      (pages <- oracle (ocr_process env (client self)
                 (mkOCRRequest "mistral-ocr-latest" doc_input_type
                    (hd EmptyString (PyStr.split "_" doc_input_type) ++ "_url")
                    (document_type_prefix ++ base64_encoded_file)
                    false)) ;;
       ret (PyStr.join page_separator pages))
      (fun e => raise e).

(** *** pdf2md.py, [process_images_to_markdown_stream] *)

(** The body of the [for] loop over the chunks of the conversion routine;
    it gives the new value of [current_page]. *)
Definition vllm_chunk_step (request_id : string) (num_pages : nat)
    (current_page : nat) (markdown_content_chunk : string) : Gen World nat :=
  (if (1 <? num_pages)%nat
   then yield VllmChunk
          (Msg.progress_header request_id (Nat.min current_page num_pages) num_pages
           ++ process_tags markdown_content_chunk)
   else yield VllmChunk (process_tags markdown_content_chunk)) ;;
  ret (if PyStr.contains "---" markdown_content_chunk
       then PyStr.count "---" markdown_content_chunk + 1
       else current_page).

Definition process_images_to_markdown_stream
    (images_list : list string) (request_id_prefix : string) : Gen World unit :=
  emit (Call_process_images_to_markdown_stream images_list request_id_prefix) ;;
  u <- call (uuid4 env) ;;
  let request_id := request_id_prefix ++ "-" ++ PyStr.take 8 u in
  let num_pages := List.length images_list in
  let current_page := 1 in
  try_except
    (stream <- call (convert_to_markdown_stream env images_list cfg) ;;
     emit (Call_convert_to_markdown_stream images_list (fst stream) (snd stream)) ;;
     _ <- for_each_with (fst stream) current_page (vllm_chunk_step request_id num_pages) ;;
     match snd stream with
     | Some e => raise e
     | None => ret tt
     end)
    (fun e => yield VllmStreamError (Msg.vllm_stream_error request_id e)).

(** *** pdf2md.py, [process_uploaded_files_to_markdown] *)

(** How the fallback block of the loop body ends: by falling through to the
    statement after it, or by [continue]. *)
Inductive Flow : Set := Normal | Continue.

(** [enumerate(l)] *)
Definition enumerate {A} (l : list A) : list (nat * A) :=
  combine (seq 0 (List.length l)) l.

(** The Mistral branch of the loop body (lines 160-183); it gives the value
    of [use_vllm_fallback] after it. *)
Definition try_mistral (mistral_client : option MistralOCRClient)
    (file_path : string) : Gen World bool :=
  match mistral_client with
  | Some c =>
      try_except
        (yield MistralAttempt (Msg.mistral_attempt file_path) ;;
         markdown_output <-
           observed (Call_extract_text_from_file file_path)
                    (extract_text_from_file c file_path) ;;
         let pages := PyStr.split page_separator markdown_output in
         let num_pages := List.length pages in
         for_each (enumerate pages) (fun '(i, page_md) =>
           if (1 <? num_pages)%nat
           then yield MistralPage
                  (Msg.mistral_page_header file_path i num_pages
                   ++ process_tags page_md ++ page_separator)
           else yield MistralPage (process_tags page_md)) ;;
         ret false)
        (fun e =>
           yield MistralError (Msg.mistral_error file_path e) ;;
           ret true)
  | None => ret true
  end.

(** The fallback block of the loop body (lines 185-204). *)
Definition vllm_fallback (request_id file_path : string) : Gen World Flow :=
  yield VllmNotice (Msg.vllm_notice file_path) ;;
  try_except
    (image_paths <-
       observed (Call_convert_files_to_images [file_path] (max_img_size cfg))
                (oracle (convert_files_to_images env [file_path] (max_img_size cfg))) ;;
     match image_paths with
     | [] =>
         yield RasterEmpty (Msg.raster_empty file_path) ;;
         ret Continue
     | _ :: _ =>
         yield_from (process_images_to_markdown_stream image_paths
                       (request_id ++ "-vllm")) ;;
         ret Normal
     end)
    (fun e =>
       yield VllmFallbackError (Msg.vllm_fallback_error file_path e) ;;
       ret Normal).

(** The body of the loop over the files (lines 155-206). *)
Definition process_file (mistral_client : option MistralOCRClient)
    (file_obj : File) : Gen World unit :=
  let file_path := name file_obj in
  u <- call (uuid4 env) ;;
  let request_id := PyStr.take 8 u in
  use_vllm_fallback <- try_mistral mistral_client file_path ;;
  flow <- (if use_vllm_fallback : bool
           then vllm_fallback request_id file_path
           else ret Normal) ;;
  match flow with
  | Continue => ret tt
  | Normal => yield FileComplete (Msg.file_complete file_path)
  end.

(** Lines 140-152: the client is built once, before the loop. *)
Definition init_mistral_client : Gen World (option MistralOCRClient) :=
  mistral_api_key <- ask (os_getenv env "MISTRAL_API_KEY") ;;
  if truthy mistral_api_key
  then
    try_except
      (c <- observed (fun r => Call_MistralOCRClient
                                 match r with inl e => Some e | inr _ => None end)
                     MistralOCRClient_init ;;
       ret (Some c))
      (fun e =>
         yield ClientInitWarning (Msg.client_init_warning e) ;;
         ret None)
  else ret None.

(** [files] is [None] or a list. *)
Definition process_uploaded_files_to_markdown (files : option (list File)) : Gen World unit :=
  match files with
  | None | Some [] => yield NoFilesMessage Msg.no_files
  | Some ((_ :: _) as files) =>
      mistral_client <- init_mistral_client ;;
      for_each files (process_file mistral_client)
  end.

End Code.

(** ** Reading a trace *)

Fixpoint fragments (t : list Event) : list Fragment :=
  match t with
  | [] => []
  | Yield f :: t' => f :: fragments t'
  | _ :: t' => fragments t'
  end.

Definition fragments_at (k : Site) (t : list Event) : list Fragment :=
  filter (fun f => Site_eqb (site f) k) (fragments t).

(** The calls to the rasterizer: the paths given and what came back. *)
Fixpoint raster_calls (t : list Event) : list (list string * (Exception + list string)) :=
  match t with
  | [] => []
  | Call_convert_files_to_images ps _ r :: t' => (ps, r) :: raster_calls t'
  | _ :: t' => raster_calls t'
  end.

(** The image lists the VLLM driver was invoked with. *)
Fixpoint driver_calls (t : list Event) : list (list string) :=
  match t with
  | [] => []
  | Call_process_images_to_markdown_stream imgs _ :: t' => imgs :: driver_calls t'
  | _ :: t' => driver_calls t'
  end.

(** The calls to the conversion routine and what it gave. *)
Fixpoint stream_calls (t : list Event)
    : list (list string * (list string * option Exception)) :=
  match t with
  | [] => []
  | Call_convert_to_markdown_stream imgs chunks raised :: t' =>
      (imgs, (chunks, raised)) :: stream_calls t'
  | _ :: t' => stream_calls t'
  end.

(** The calls to the hosted OCR backend. *)
Fixpoint extract_calls (t : list Event) : list (string * (Exception + string)) :=
  match t with
  | [] => []
  | Call_extract_text_from_file p r :: t' => (p, r) :: extract_calls t'
  | _ :: t' => extract_calls t'
  end.

(** The attempts to build the hosted OCR client. *)
Fixpoint client_constructions (t : list Event) : list (option Exception) :=
  match t with
  | [] => []
  | Call_MistralOCRClient r :: t' => r :: client_constructions t'
  | _ :: t' => client_constructions t'
  end.

(** Any call at all to a backend, the rasterizer or the client constructor. *)
Definition is_call (ev : Event) : bool :=
  match ev with
  | Yield _ => false
  | _ => true
  end.

(** A fragment that reports a failure: the warnings and errors of lines 182,
    194, 132 and 204. *)
Definition is_failure_site (k : Site) : bool :=
  match k with
  | MistralError | RasterEmpty | VllmStreamError | VllmFallbackError => true
  | _ => false
  end.

(** The fragments the Mistral branch yields for the text [markdown_output]
    (lines 170-177). *)
Definition mistral_page_fragments (file_path markdown_output : string) : list Fragment :=
  let pages := PyStr.split page_separator markdown_output in
  let num_pages := List.length pages in
  map (fun '(i, page_md) =>
         mkFragment MistralPage
           (if (1 <? num_pages)%nat
            then Msg.mistral_page_header file_path i num_pages
                 ++ process_tags page_md ++ page_separator
            else process_tags page_md))
      (enumerate pages).

(** The page number [current_page] holds after a chunk (lines 125-126). *)
Definition next_page (current_page : nat) (chunk : string) : nat :=
  if PyStr.contains "---" chunk then PyStr.count "---" chunk + 1 else current_page.

(** The fragments the driver yields for the chunks of the conversion routine,
    from the page number [current_page] on (lines 119-126). *)
Fixpoint vllm_chunk_fragments (request_id : string) (num_pages current_page : nat)
    (chunks : list string) : list Fragment :=
  match chunks with
  | [] => []
  | c :: rest =>
      mkFragment VllmChunk
        ((if (1 <? num_pages)%nat
          then Msg.progress_header request_id (Nat.min current_page num_pages) num_pages
          else EmptyString) ++ process_tags c)
      :: vllm_chunk_fragments request_id num_pages (next_page current_page c) rest
  end.

(** What the driver does, given the request id it drew and what the
    conversion routine gave. *)
Definition driver_events (images_list : list string) (request_id_prefix u : string)
    (stream : list string * option Exception) : list Event :=
  let request_id := request_id_prefix ++ "-" ++ PyStr.take 8 u in
  Call_process_images_to_markdown_stream images_list request_id_prefix
  :: Call_convert_to_markdown_stream images_list (fst stream) (snd stream)
  :: map Yield (vllm_chunk_fragments request_id (List.length images_list) 1 (fst stream))
  ++ match snd stream with
     | Some e => [Yield (mkFragment VllmStreamError (Msg.vllm_stream_error request_id e))]
     | None => []
     end.

(** What the Mistral branch does, given how the call to the backend ended. *)
Definition mistral_events (file_path : string) (r : Exception + string) : list Event :=
  Yield (mkFragment MistralAttempt (Msg.mistral_attempt file_path))
  :: Call_extract_text_from_file file_path r
  :: match r with
     | inl e => [Yield (mkFragment MistralError (Msg.mistral_error file_path e))]
     | inr markdown_output =>
         map Yield (mistral_page_fragments file_path markdown_output)
     end.

(** What the loop body does for one file, given how the call to the hosted
    backend ended ([None] where there is no client), what the rasterizer gave
    and what the driver did. *)
Definition file_events (file_path : string) (size : Z)
    (m : option (Exception + string)) (r : Exception + list string)
    (d : list Event) : list Event :=
  let complete := Yield (mkFragment FileComplete (Msg.file_complete file_path)) in
  match m with
  | Some mr => mistral_events file_path mr
  | None => []
  end ++
  match m with
  | Some (inr _) => [complete]
  | _ =>
      Yield (mkFragment VllmNotice (Msg.vllm_notice file_path))
      :: Call_convert_files_to_images [file_path] size r
      :: match r with
         | inl e =>
             [Yield (mkFragment VllmFallbackError
                       (Msg.vllm_fallback_error file_path e));
              complete]
         | inr [] => [Yield (mkFragment RasterEmpty (Msg.raster_empty file_path))]
         | inr (_ :: _) => d ++ [complete]
         end
  end.

(** The runs of the loop body, file after file, each in the world the one
    before left. *)
Fixpoint file_runs {World Handle} (env : Env World Handle) (cfg : Config)
    (mistral_client : option (@MistralOCRClient Handle))
    (files : list File) (w : World) : list (Run World unit) :=
  match files with
  | [] => []
  | f :: rest =>
      let r := process_file env cfg mistral_client f w in
      r :: file_runs env cfg mistral_client rest (world r)
  end.

(** The side condition under which a replacement cannot make an occurrence
    of the token [t]: the replacement text is not empty, the first character
    of [t] is not in it, and its own first character is not in the rest of
    [t]. *)
Definition apart (t new : string) : bool :=
  match t, new with
  | String c u, String a _ =>
      (PyStr.all_chars (fun x => negb (Ascii.eqb x c)) new
       && PyStr.all_chars (fun x => negb (Ascii.eqb x a)) u)%bool
  | _, _ => false
  end.

(** A fragment that closes the work on a file: the file-complete fragment,
    or the could-not-convert fragment before the [continue]. *)
Definition closes_file (fr : Fragment) : bool :=
  (Site_eqb (site fr) FileComplete || Site_eqb (site fr) RasterEmpty)%bool.

Definition empty_raster (c : list string * (Exception + list string)) : bool :=
  match snd c with
  | inr [] => true
  | _ => false
  end.

(** ** The driver called with [None]

    [process_images_to_markdown_stream] provides for [images_list] being
    [None] (line 109), and the orchestrator never passes it.  With [None]
    the request id is drawn (line 106) and [len(images_list)] in the log
    line 107 raises before the [try] is entered. *)

Section DriverEntry.

Context {World Handle : Type}.
Variable env : Env World Handle.
Variable cfg : Config.

Local Open Scope gen_scope.

Definition process_images_to_markdown_stream_entry
    (images_list : option (list string)) (request_id_prefix : string)
    : Gen World unit :=
  match images_list with
  | Some l => process_images_to_markdown_stream env cfg l request_id_prefix
  | None =>
      _ <- call (uuid4 env) ;;
      raise (mkException "TypeError" "object of type 'NoneType' has no len()")
  end.

End DriverEntry.

(** The attempt fragments and the calls to the hosted backend, to read
    their order off a trace. *)
Definition attempt_or_extract (ev : Event) : bool :=
  match ev with
  | Yield fr => Site_eqb (site fr) MistralAttempt
  | Call_extract_text_from_file _ _ => true
  | _ => false
  end.

(** ** The upload handler (pdf2md.py, [handle_file_upload]) *)

(** [gr.update(visible=..., value=...)]; [value] is [None] where the call
    gives none. *)
Record Update := mkUpdate { visible : bool; value : option (list string) }.

Section Upload.

Context {World Handle : Type}.
Variable env : Env World Handle.

(** The default of [max_img_size] in
    [docext.core.utils.convert_files_to_images], which the handler calls
    without the argument. *)
Variable default_max_img_size : Z.

Local Open Scope gen_scope.

Definition handle_file_upload (files : option (list File))
    : Gen World (option (list string) * Update * Update) :=
  match files with
  | None | Some [] => ret (None, mkUpdate false None, mkUpdate false None)
  | Some ((_ :: _) as files) =>
      let file_paths := map name files in
      image_paths <-
        observed (Call_convert_files_to_images file_paths default_max_img_size)
                 (oracle (convert_files_to_images env file_paths default_max_img_size)) ;;
      ret (Some image_paths, mkUpdate true (Some image_paths), mkUpdate true None)
  end.

End Upload.

(** ** The completion request (client.py, [sync_request]) *)

(** What a message holds under ["text"]: a [str]; a [bytes], which has a
    [lower] and in which a [str] cannot be looked for; or a value of a type
    that has no [lower] ([None], a number, a list, a dict), given by the name
    of its type.  Values of classes that bring a [lower] of their own are
    outside the model. *)
Inductive TextValue :=
| Str (s : string)
| Bytes (b : string)
| NotStr (type_name : string).

(** An element of [messages]: a dict, of which the code reads the entry
    ["text"] only, or a value that is no dict. *)
Inductive Message :=
| Dict (text : option TextValue)
| NotDict.

Definition AttributeError (msg : string) : Exception :=
  mkException "AttributeError" msg.

Definition TypeError (msg : string) : Exception :=
  mkException "TypeError" msg.

(** A value in a dict given as [format]: a string, or a value of another
    kind, which the code does not look into. *)
Inductive Value (V : Type) :=
| StrValue (s : string)
| OtherValue (v : V).
Arguments StrValue {V}.
Arguments OtherValue {V}.

(** A dict with string keys. *)
Definition PyDict (V : Type) : Type := list (string * Value V).

(** [{"type": "json_object"}] (line 53) *)
Definition json_object {V} : PyDict V := [("type", StrValue "json_object")].

(** The keyword arguments of [completion].  ["api_base"] is always there,
    with [None] for Python's [None]; for ["api_key"], ["format"] and
    ["response_format"], [None] says that the key is not in the dict.  The
    value under ["response_format"] is the [format] argument as it came, a
    dict or [None] (line 49), or the dict of line 53. *)
Record CompletionArgs (V : Type) := mkCompletionArgs {
  arg_model : string;
  arg_messages : list Message;
  arg_max_tokens : Z;
  arg_n : Z;
  arg_temperature : Z;
  arg_api_base : option string;
  arg_api_key : option string;
  arg_format : option (PyDict V);
  arg_response_format : option (option (PyDict V))
}.
Arguments mkCompletionArgs {V}.
Arguments arg_model {V}.
Arguments arg_messages {V}.
Arguments arg_max_tokens {V}.
Arguments arg_n {V}.
Arguments arg_temperature {V}.
Arguments arg_api_base {V}.
Arguments arg_api_key {V}.
Arguments arg_format {V}.
Arguments arg_response_format {V}.

(** [completion_args["api_key"] = k] *)
Definition set_api_key {V} (a : CompletionArgs V) (k : string) : CompletionArgs V :=
  mkCompletionArgs (arg_model a) (arg_messages a) (arg_max_tokens a) (arg_n a)
    (arg_temperature a) (arg_api_base a) (Some k) (arg_format a)
    (arg_response_format a).

(** [completion_args["format"] = f] *)
Definition set_format {V} (a : CompletionArgs V) (f : PyDict V)
    : CompletionArgs V :=
  mkCompletionArgs (arg_model a) (arg_messages a) (arg_max_tokens a) (arg_n a)
    (arg_temperature a) (arg_api_base a) (arg_api_key a) (Some f)
    (arg_response_format a).

(** [completion_args["response_format"] = r] *)
Definition set_response_format {V} (a : CompletionArgs V) (r : option (PyDict V))
    : CompletionArgs V :=
  mkCompletionArgs (arg_model a) (arg_messages a) (arg_max_tokens a) (arg_n a)
    (arg_temperature a) (arg_api_base a) (arg_api_key a) (arg_format a) (Some r).

(** [any("json" in m.get("text", "").lower() for m in messages
         if isinstance(m, dict))]: the messages are gone through in order up
    to the first that mentions json; a value under ["text"] that has no
    [lower] raises on the way, and so does a [bytes], in which the [str]
    ["json"] cannot be looked for.  The letters of ["json"] and ["gpt"] are the
    lower case of ASCII letters only, so [lower] on ASCII finds what
    [str.lower] finds. *)
Fixpoint any_mentions_json (messages : list Message) : Exception + bool :=
  match messages with
  | [] => inr false
  | NotDict :: rest => any_mentions_json rest
  | Dict text :: rest =>
      match match text with Some v => v | None => Str EmptyString end with
      | Str s =>
          if PyStr.contains "json" (PyStr.lower s) then inr true
          else any_mentions_json rest
      | Bytes _ =>
          inl (TypeError "a bytes-like object is required, not 'str'")
      | NotStr type_name =>
          inl (AttributeError
                 ("'" ++ type_name ++ "' object has no attribute 'lower'"))
      end
  end.

(** Truth of [dict | None] in a condition. *)
Definition dict_truthy {V} (d : option (PyDict V)) : bool :=
  match d with
  | Some (_ :: _) => true
  | _ => false
  end.

Section Request.

Context {World Handle : Type}.
Variable env : Env World Handle.

(** What a JSON schema holds, the response of [litellm.completion] and what
    its [json()] gives are not looked into by the code. *)
Context {V Response Json : Type}.
Variable completion : CompletionArgs V -> World -> (Exception + Response) * World.
Variable response_json : Response -> World -> (Exception + Json) * World.

Local Open Scope gen_scope.

(** [os.getenv(var, default)] *)
Definition getenv_default (var default : string) (w : World) : string :=
  match os_getenv env var w with
  | Some v => v
  | None => default
  end.

(** Lines 22-53: the keyword arguments. *)
Definition completion_args_of (messages : list Message) (model_name : string)
    (max_tokens num_completions : Z) (format : option (PyDict V))
    : Gen World (CompletionArgs V) :=
  vlm_url <- ask (getenv_default "VLM_MODEL_URL" "") ;;
  if String.eqb vlm_url ""
  then raise (ValueError
    "VLM_MODEL_URL is not set. Please set it to the URL of the VLM model.")
  else
    let completion_args :=
      mkCompletionArgs model_name messages max_tokens num_completions 0
        (if (prefix "hosted_vllm/" model_name || prefix "ollama/" model_name)%bool
         then Some vlm_url else None)
        None None None in
    completion_args <-
      (if (prefix "hosted_vllm/" model_name || prefix "ollama/" model_name)%bool
       then api_key <- ask (getenv_default "API_KEY" "EMPTY") ;;
            ret (set_api_key completion_args api_key)
       else ret completion_args) ;;
    if (prefix "ollama/" model_name && dict_truthy format)%bool
    then ret (set_format completion_args
                match format with Some f => f | None => [] end)
    else if prefix "openrouter" model_name
    then ret (set_response_format completion_args format)
    else if PyStr.contains "gpt" (PyStr.lower model_name)
    then
      match any_mentions_json messages with
      | inl e => raise e
      | inr true => ret (set_response_format completion_args (Some json_object))
      | inr false => ret completion_args
      end
    else ret completion_args.

Definition sync_request (messages : list Message) (model_name : string)
    (max_tokens num_completions : Z) (format : option (PyDict V))
    : Gen World Json :=
  completion_args <-
    completion_args_of messages model_name max_tokens num_completions format ;;
  response <- oracle (completion completion_args) ;;
  oracle (response_json response).

End Request.

(** The defaults of [sync_request]. *)
Definition default_model_name : string := "hosted_vllm/Qwen/Qwen2.5-VL-3B-Instruct".
Definition default_max_tokens : Z := 5000.
Definition default_num_completions : Z := 1.

(** A page that gives no occurrence of the separator when the separator
    follows it: none inside the page, and none made of the end of the page
    and the start of the separator. *)
Definition splits_clean (sep page : string) : bool :=
  negb (PyStr.contains sep (page ++ PyStr.take (String.length sep - 1) sep)).

(** ** Scripted worlds

    Worlds to run the pipeline in: the world is the number of request ids
    drawn so far, and each collaborator answers from a script. *)

Module Scenario.

Record Script := mkScript {
  api_key_var : option string;
  sdk_failure : option Exception;
  ocr_answer : string -> Exception + list string;
  raster_answer : string -> Exception + list string;
  stream_answer : list string -> list string * option Exception
}.

Definition uuid_of (n : nat) : string :=
  "0000000" ++ PyStr.str_of_nat n ++ "-0000-4000-8000-000000000000".

(** The file system holds every path asked for; a file's content is its own
    path and the encoding leaves it as it is, so that the scripted OCR answer
    can tell the files apart by the data URL. *)
Definition env_of (s : Script) : Env nat unit :=
  {| os_getenv := fun var _ =>
       if String.eqb var "MISTRAL_API_KEY" then api_key_var s else None;
     uuid4 := fun w => (uuid_of w, S w);
     Mistral := fun _ w =>
       (match sdk_failure s with Some e => inl e | None => inr tt end, w);
     os_path_exists := fun _ _ => true;
     read_file := fun p w => (inr p, w);
     b64encode := fun data => data;
     guess_type := fun _ => None;
     ocr_process := fun _ req w => (ocr_answer s (document_url req), w);
     convert_files_to_images := fun ps _ w =>
       (raster_answer s (hd EmptyString ps), w);
     convert_to_markdown_stream := fun imgs _ w => (stream_answer s imgs, w) |}.

Definition cfg : Config :=
  mkConfig "hosted_vllm/nanonets/Nanonets-OCR-s" 2048 1 10000.

Definition report : File := mkFile "/tmp/gradio/report.pdf".
Definition photo : File := mkFile "/tmp/gradio/photo.jpg".
Definition corrupt : File := mkFile "/tmp/gradio/corrupt.pdf".

Definition report_pages : list string :=
  ["/tmp/report_0.png"; "/tmp/report_1.png"; "/tmp/report_2.png"].

(** The rasterizer: three pages for the report, the image itself for the
    photo, nothing for the corrupt file. *)
Definition raster (p : string) : Exception + list string :=
  if String.eqb p (name report) then inr report_pages
  else if String.eqb p (name photo) then inr [name photo]
  else inr [].

(** The conversion routine: one chunk a page, each chunk of a document of
    several pages ending in the page delimiter. *)
Definition stream (imgs : list string) : list string * option Exception :=
  match imgs with
  | [_] => (["A photo."], None)
  | _ => (map (fun i => "Text of " ++ i ++ nl ++ nl ++ "---" ++ nl ++ nl) imgs, None)
  end.

Definition two_pages (_ : string) : Exception + list string :=
  inr ["Page1"; "Page2"].

Definition no_ocr (_ : string) : Exception + list string :=
  inl (mkException "SDKError" "API error occurred: Status 401").

(** No credential: every file goes through the rasterizer and the driver. *)
Definition vllm_only : Env nat unit :=
  env_of (mkScript None None no_ocr raster stream).

(** Credential set, the hosted backend answers with two pages. *)
Definition mistral_ok : Env nat unit :=
  env_of (mkScript (Some "secret") None two_pages raster stream).

(** Credential set, the hosted backend fails for every file. *)
Definition mistral_down : Env nat unit :=
  env_of (mkScript (Some "secret") None no_ocr raster stream).

(** Credential set, the SDK client cannot be built. *)
Definition sdk_broken : Env nat unit :=
  env_of (mkScript (Some "secret")
            (Some (mkException "RuntimeError" "cannot reach api.mistral.ai"))
            two_pages raster stream).

(** The conversion routine yields one chunk and then raises with a message
    that holds a raw token. *)
Definition stream_breaks : Env nat unit :=
  env_of (mkScript None None no_ocr raster
            (fun _ => (["First page"],
                       Some (mkException "ValueError" "cannot parse <img> tag")))).

(** The client the orchestrator holds once the SDK client is built. *)
Definition sdk_client : @MistralOCRClient unit := mkClient "secret" tt.

(** No credential, and the rasterizer raises for every file. *)
Definition raster_breaks : Env nat unit :=
  env_of (mkScript None None no_ocr
            (fun _ => inl (mkException "RuntimeError" "poppler is not installed"))
            stream).

(** The scripted collaborators over a file system and a table of MIME types
    of one's own. *)
Definition on_disk (present : string -> bool) (content : string -> Exception + string)
    (mime : string -> option string) (e : Env nat unit) : Env nat unit :=
  {| os_getenv := os_getenv e;
     uuid4 := uuid4 e;
     Mistral := Mistral e;
     os_path_exists := fun p _ => present p;
     read_file := fun p w => (content p, w);
     b64encode := b64encode e;
     guess_type := mime;
     ocr_process := ocr_process e;
     convert_files_to_images := convert_files_to_images e;
     convert_to_markdown_stream := convert_to_markdown_stream e |}.

(** No file is there. *)
Definition empty_disk : Env nat unit :=
  on_disk (fun _ => false) (fun p => inr p) (fun _ => None) mistral_ok.

(** The files are there and cannot be read. *)
Definition locked_disk : Env nat unit :=
  on_disk (fun _ => true)
    (fun _ => inl (mkException "PermissionError" "[Errno 13] Permission denied"))
    (fun _ => None) mistral_ok.

(** Every file is known to [mimetypes] as plain text. *)
Definition text_disk : Env nat unit :=
  on_disk (fun _ => true) (fun p => inr p) (fun _ => Some "text/plain") mistral_ok.

Definition scan : File := mkFile "/tmp/gradio/SCAN.PDF".
Definition notes : File := mkFile "/tmp/gradio/notes.txt".

(** The URL of the model is set, the API key is not. *)
Definition served : Env nat unit :=
  on_disk (fun _ => true) (fun p => inr p) (fun _ => None)
    {| os_getenv := fun var _ =>
         if String.eqb var "VLM_MODEL_URL" then Some "http://localhost:8000/v1"
         else None;
       uuid4 := uuid4 vllm_only;
       Mistral := Mistral vllm_only;
       os_path_exists := os_path_exists vllm_only;
       read_file := read_file vllm_only;
       b64encode := b64encode vllm_only;
       guess_type := guess_type vllm_only;
       ocr_process := ocr_process vllm_only;
       convert_files_to_images := convert_files_to_images vllm_only;
       convert_to_markdown_stream := convert_to_markdown_stream vllm_only |}.

(** A [completion] that answers with the arguments it was called with, one
    request further on in the world. *)
(** The hosted backend answers with one page, which holds a horizontal
    rule. *)
Definition ruled_page : string :=
  "Summary" ++ nl ++ nl ++ "---" ++ nl ++ nl ++ "Details".

Definition one_ruled_page : Env nat unit :=
  env_of (mkScript (Some "secret") None (fun _ => inr [ruled_page]) raster stream).

(** No credential, and the conversion routine yields nothing and does not
    raise. *)
Definition silent_stream : Env nat unit :=
  env_of (mkScript None None no_ocr raster (fun _ => ([], None))).

Definition echo (a : CompletionArgs unit) (w : nat)
    : (Exception + CompletionArgs unit) * nat :=
  (inr a, S w).

Definition echo_json (r : CompletionArgs unit) (w : nat)
    : (Exception + CompletionArgs unit) * nat :=
  (inr r, w).

End Scenario.

(** ** The operations on examples *)

Example process_tags_ex1 :
  process_tags "a<img>b</img><<signature>>" =
  "a&lt;img&gt;b&lt;/img&gt;<&lt;signature&gt;>".
Proof. reflexivity. Qed.

Example replace_ex1 : PyStr.replace "aa" "b" "aaaaa" = "bba".
Proof. reflexivity. Qed.

Example replace_ex2 : PyStr.replace "" "-" "abc" = "-a-b-c-".
Proof. reflexivity. Qed.

Example count_ex1 : PyStr.count "---" "a------b----" = 3.
Proof. reflexivity. Qed.

Example split_ex1 : PyStr.split "--" "a--b----c-" = ["a"; "b"; ""; "c-"].
Proof. reflexivity. Qed.

Example split_ex2 : PyStr.split "--" "" = [""].
Proof. reflexivity. Qed.

Example basename_ex1 : basename "/tmp/gradio/report.pdf" = "report.pdf".
Proof. reflexivity. Qed.

Example basename_ex2 : basename "photo.jpg" = "photo.jpg".
Proof. reflexivity. Qed.

Example splitext_ex1 : splitext_ext "/a.b/c.tar.GZ" = ".GZ".
Proof. reflexivity. Qed.

Example splitext_ex2 : splitext_ext "/a.b/.bashrc" = "".
Proof. reflexivity. Qed.

Example progress_header_ex1 :
  Msg.progress_header "ab-vllm-cd" 2 3 =
  "📄 **VLLM Conversion Progress** `[Request ab-vllm-cd]` (Processing page 2 of 3)"
  ++ nl ++ nl.
Proof. reflexivity. Qed.

(** ** Facts about the string operations *)

Section ReplaceFacts.

Local Open Scope bool_scope.

Lemma prefix_cons (c a : ascii) (u s : string) :
  prefix (String c u) (String a s) = true <-> c = a /\ prefix u s = true.
Proof.
  simpl. destruct (ascii_dec c a) as [->|Hne]; split; intros H.
  - now split.
  - now destruct H.
  - discriminate.
  - destruct H as [H _]. contradiction.
Qed.

Lemma contains_cons (t : string) (a : ascii) (s : string) :
  PyStr.contains t (String a s) = prefix t (String a s) || PyStr.contains t s.
Proof. reflexivity. Qed.

Lemma string_app_cons (a : ascii) (x y : string) :
  (String a x ++ y)%string = String a (x ++ y).
Proof. reflexivity. Qed.

Lemma contains_skip_app (c : ascii) (u new y : string) :
  PyStr.all_chars (fun x => negb (Ascii.eqb x c)) new = true ->
  PyStr.contains (String c u) (new ++ y) = true ->
  PyStr.contains (String c u) y = true.
Proof.
  induction new as [|a new IH]; intros Hall H.
  - exact H.
  - simpl in Hall. apply andb_true_iff in Hall as [Ha Hall].
    rewrite string_app_cons, contains_cons in H.
    apply orb_true_iff in H as [H|H].
    + apply prefix_cons in H as [-> _].
      rewrite Ascii.eqb_refl in Ha. discriminate.
    + now apply IH.
Qed.

Lemma replace_from_nil k old new : PyStr.replace_from k old new EmptyString = EmptyString.
Proof. now destruct k. Qed.

Lemma replace_from_skip k old new a s :
  PyStr.replace_from (S k) old new (String a s) = PyStr.replace_from k old new s.
Proof. reflexivity. Qed.

Lemma replace_from_scan old new a s :
  PyStr.replace_from 0 old new (String a s) =
  if prefix old (String a s)
  then (new ++ PyStr.replace_from (String.length old - 1) old new s)%string
  else String a (PyStr.replace_from 0 old new s).
Proof. reflexivity. Qed.

(** A prefix free of the first character of the replacement text is a prefix
    of the scanned string already. *)
Lemma prefix_replace_from (old : string) (a : ascii) (new' u : string) :
  PyStr.all_chars (fun x => negb (Ascii.eqb x a)) u = true ->
  forall s,
    prefix u (PyStr.replace_from 0 old (String a new') s) = true ->
    prefix u s = true.
Proof.
  induction u as [|b u IH]; intros Hall s H.
  - now destruct s.
  - simpl in Hall. apply andb_true_iff in Hall as [Hb Hall].
    destruct s as [|d s].
    + rewrite replace_from_nil in H. discriminate.
    + rewrite replace_from_scan in H.
      destruct (prefix old (String d s)).
      * rewrite string_app_cons in H. apply prefix_cons in H as [-> _].
        rewrite Ascii.eqb_refl in Hb. discriminate.
      * apply prefix_cons in H as [-> H].
        apply prefix_cons. split; [reflexivity|]. now apply IH.
Qed.

(** A replacement apart from [t] makes no occurrence of [t]. *)
Lemma contains_replace_from (t old new : string) :
  apart t new = true ->
  forall s k,
    PyStr.contains t (PyStr.replace_from k old new s) = true ->
    PyStr.contains t s = true.
Proof.
  intros Hap.
  destruct t as [|c u]; [discriminate|].
  destruct new as [|a new']; [discriminate|].
  simpl in Hap. apply andb_true_iff in Hap as [Hnew Hu].
  induction s as [|d s IH]; intros k H.
  - rewrite replace_from_nil in H. exact H.
  - rewrite contains_cons. apply orb_true_iff.
    destruct k as [|k].
    + rewrite replace_from_scan in H.
      destruct (prefix old (String d s)).
      * right. eapply IH. eapply contains_skip_app; [|exact H]. exact Hnew.
      * rewrite contains_cons in H. apply orb_true_iff in H as [H|H].
        -- left. apply prefix_cons in H as [-> H]. apply prefix_cons.
           split; [reflexivity|]. eapply prefix_replace_from; eauto.
        -- right. eapply IH; eauto.
    + right. rewrite replace_from_skip in H. eapply IH; eauto.
Qed.

(** After the scan no occurrence of the pattern is left. *)
Lemma contains_replace_from_self (old new : string) :
  apart old new = true ->
  forall s k, PyStr.contains old (PyStr.replace_from k old new s) = false.
Proof.
  intros Hap.
  destruct old as [|c u] eqn:Eold; [discriminate|].
  destruct new as [|a new'] eqn:Enew; [discriminate|].
  simpl in Hap. apply andb_true_iff in Hap as [Hnew Hu].
  rewrite <- Eold, <- Enew.
  induction s as [|d s IH]; intros k.
  - rewrite replace_from_nil. now subst.
  - destruct k as [|k].
    + rewrite replace_from_scan.
      destruct (prefix old (String d s)) eqn:Hp.
      * apply not_true_is_false. intros H.
        rewrite Eold, Enew in H. apply contains_skip_app in H; [|exact Hnew].
        rewrite <- Eold, <- Enew in H. rewrite IH in H. discriminate.
      * rewrite contains_cons, IH, orb_false_r.
        apply not_true_is_false. intros H.
        rewrite Eold in H at 1. apply prefix_cons in H as [-> H].
        rewrite Enew in H. apply prefix_replace_from in H; [|exact Hu].
        rewrite Eold in Hp.
        assert (prefix (String d u) (String d s) = true) as Hq
            by (apply prefix_cons; now split).
        rewrite Hq in Hp. discriminate.
    + rewrite replace_from_skip. apply IH.
Qed.

(** Where the pattern does not occur the scan changes nothing. *)
Lemma replace_from_absent (old new : string) :
  forall s, PyStr.contains old s = false -> PyStr.replace_from 0 old new s = s.
Proof.
  induction s as [|d s IH]; intros H.
  - reflexivity.
  - rewrite contains_cons in H. apply orb_false_iff in H as [Hp H].
    rewrite replace_from_scan, Hp, IH; auto.
Qed.

Lemma replace_absent (old new s : string) :
  old <> EmptyString ->
  PyStr.contains old s = false -> PyStr.replace old new s = s.
Proof.
  intros Hne H. destruct old; [contradiction|]. now apply replace_from_absent.
Qed.

Lemma replace_keeps_absent (t old new s : string) :
  apart t new = true -> old <> EmptyString ->
  PyStr.contains t s = false ->
  PyStr.contains t (PyStr.replace old new s) = false.
Proof.
  intros Hap Hne H. destruct old; [contradiction|].
  apply not_true_is_false. intros Hc.
  apply contains_replace_from in Hc; [|exact Hap]. congruence.
Qed.

Lemma replace_removes (old new s : string) :
  apart old new = true ->
  PyStr.contains old (PyStr.replace old new s) = false.
Proof.
  intros Hap. destruct old as [|c u] eqn:E; [discriminate|].
  apply contains_replace_from_self. exact Hap.
Qed.

(** Where the pattern does not occur [count] finds nothing. *)
Lemma count_from_scan sub a s :
  PyStr.count_from 0 sub (String a s) =
  if prefix sub (String a s)
  then S (PyStr.count_from (String.length sub - 1) sub s)
  else PyStr.count_from 0 sub s.
Proof. reflexivity. Qed.

Lemma count_from_absent (sub : string) :
  forall s k, PyStr.contains sub s = false -> PyStr.count_from k sub s = 0.
Proof.
  induction s as [|d s IH]; intros k H.
  - now destruct k.
  - rewrite contains_cons in H. apply orb_false_iff in H as [Hp H].
    destruct k.
    + rewrite count_from_scan, Hp. now apply IH.
    + change (PyStr.count_from (S k) sub (String d s))
        with (PyStr.count_from k sub s). now apply IH.
Qed.

End ReplaceFacts.

(** ** The sanitizer *)

Ltac token_absent :=
  first
    [ apply replace_removes; reflexivity
    | apply replace_keeps_absent; [reflexivity | discriminate | token_absent] ].

Lemma process_tags_clean (x : string) :
  Forall (fun t => PyStr.contains t (process_tags x) = false) raw_tokens.
Proof.
  unfold process_tags, raw_tokens.
  repeat apply Forall_cons; try apply Forall_nil; token_absent.
Qed.

Lemma process_tags_fixed (s : string) :
  Forall (fun t => PyStr.contains t s = false) raw_tokens ->
  process_tags s = s.
Proof.
  unfold raw_tokens. intros H.
  repeat match goal with
         | H : Forall _ (_ :: _) |- _ => inversion H; subst; clear H
         end.
  unfold process_tags.
  repeat match goal with
         | H : PyStr.contains ?t s = false |- _ =>
             rewrite (replace_absent t _ s) by first [discriminate | exact H];
             clear H
         end.
  reflexivity.
Qed.

(** C2: the sanitizer is idempotent, and none of the eight raw tokens occurs
    in its output. *)
Theorem C2_process_tags_idempotent_and_clean (x : string) :
  process_tags (process_tags x) = process_tags x /\
  Forall (fun t => PyStr.contains t (process_tags x) = false) raw_tokens.
Proof.
  split.
  - apply process_tags_fixed, process_tags_clean.
  - apply process_tags_clean.
Qed.

(** ** Runs of the generators *)

Section RunFacts.

Context {World Handle : Type}.
Variable env : Env World Handle.
Variable cfg : Config.

Ltac case_split :=
  repeat match goal with
         | |- context [match ?x with _ => _ end] => destruct x eqn:?; simpl
         end.

(** The client and its constructor make no call that is recorded and yield
    nothing. *)
Lemma MistralOCRClient_init_trace (w : World) :
  trace (MistralOCRClient_init env w) = [].
Proof.
  unfold MistralOCRClient_init, bind, ask, oracle, raise, ret. simpl.
  case_split; reflexivity.
Qed.

Lemma extract_text_from_file_trace (c : MistralOCRClient) (p : string) (w : World) :
  trace (extract_text_from_file env c p w) = [].
Proof.
  unfold extract_text_from_file, _encode_file_to_base64,
    bind, try_except, ask, oracle, raise, ret. simpl.
  case_split; reflexivity.
Qed.

Lemma for_each_yield {A} (g : A -> Fragment) (body : A -> Gen World unit) :
  (forall x w, body x w = mkRun [Yield (g x)] w (inr tt)) ->
  forall l w, for_each l body w = mkRun (map (fun x => Yield (g x)) l) w (inr tt).
Proof.
  intros Hb. induction l as [|x l IH]; intros w.
  - reflexivity.
  - simpl. unfold bind. rewrite Hb. simpl. rewrite IH. reflexivity.
Qed.

Lemma chunk_loop_run (request_id : string) (num_pages : nat) :
  forall chunks current_page (w : World),
    for_each_with chunks current_page (vllm_chunk_step request_id num_pages) w =
    mkRun (map Yield (vllm_chunk_fragments request_id num_pages current_page chunks))
          w (inr (fold_left next_page chunks current_page)).
Proof.
  induction chunks as [|c chunks IH]; intros current_page w.
  - reflexivity.
  - simpl. unfold bind at 1.
    assert (vllm_chunk_step request_id num_pages current_page c w =
            mkRun [Yield (mkFragment VllmChunk
                     ((if (1 <? num_pages)%nat
                       then Msg.progress_header request_id
                              (Nat.min current_page num_pages) num_pages
                       else EmptyString) ++ process_tags c))]
                  w (inr (next_page current_page c))) as ->.
    { unfold vllm_chunk_step, bind, yield, emit, ret, next_page.
      destruct (1 <? num_pages)%nat; reflexivity. }
    simpl. rewrite IH. reflexivity.
Qed.

Lemma driver_run (images_list : list string) (request_id_prefix : string) (w : World) :
  process_images_to_markdown_stream env cfg images_list request_id_prefix w =
  let '(u, w1) := uuid4 env w in
  let '(stream, w2) := convert_to_markdown_stream env images_list cfg w1 in
  mkRun (driver_events images_list request_id_prefix u stream) w2 (inr tt).
Proof.
  unfold process_images_to_markdown_stream, driver_events.
  destruct (uuid4 env w) as [u w1] eqn:Eu.
  destruct (convert_to_markdown_stream env images_list cfg w1)
    as [[chunks raised] w2] eqn:Es.
  unfold bind, call, emit, try_except. simpl.
  rewrite Eu. simpl. rewrite Es. simpl.
  rewrite chunk_loop_run. simpl.
  destruct raised; simpl; rewrite ?app_nil_r; reflexivity.
Qed.

Lemma try_mistral_run (c : MistralOCRClient) (file_path : string) (w : World) :
  try_mistral env (Some c) file_path w =
  let r := extract_text_from_file env c file_path w in
  mkRun (mistral_events file_path (outcome r)) (world r)
        (inr match outcome r with inl _ => true | inr _ => false end).
Proof.
  unfold try_mistral, mistral_events.
  pose proof (extract_text_from_file_trace c file_path w) as Ht.
  generalize dependent (extract_text_from_file env c file_path).
  intros ex Ht.
  destruct (ex w) as [t w1 [e|text]] eqn:Ex; simpl in Ht; subst t.
  - unfold try_except, bind, observed, yield, emit, ret. simpl.
    rewrite Ex. simpl. reflexivity.
  - unfold try_except, bind, observed. simpl. rewrite Ex. simpl.
    rewrite (for_each_yield (fun '(i, page_md) =>
      mkFragment MistralPage
        (if (1 <? List.length (PyStr.split page_separator text))%nat
         then Msg.mistral_page_header file_path i
                (List.length (PyStr.split page_separator text))
              ++ process_tags page_md ++ page_separator
         else process_tags page_md))).
    + simpl. rewrite app_nil_r. unfold mistral_page_fragments.
      rewrite map_map. reflexivity.
    + intros [i pg] w'. unfold yield, emit.
      destruct (1 <? _)%nat; reflexivity.
Qed.

Opaque process_images_to_markdown_stream.

(** What the fallback block does, given what the rasterizer gave and, where
    the driver ran, what the driver did. *)
Lemma vllm_fallback_run (request_id file_path : string) (w : World) :
  vllm_fallback env cfg request_id file_path w =
  let '(res, w1) := convert_files_to_images env [file_path] (max_img_size cfg) w in
  let notice := Yield (mkFragment VllmNotice (Msg.vllm_notice file_path)) in
  let called := Call_convert_files_to_images [file_path] (max_img_size cfg) res in
  match res with
  | inl e =>
      mkRun [notice; called;
             Yield (mkFragment VllmFallbackError (Msg.vllm_fallback_error file_path e))]
            w1 (inr Normal)
  | inr [] =>
      mkRun [notice; called;
             Yield (mkFragment RasterEmpty (Msg.raster_empty file_path))]
            w1 (inr Continue)
  | inr (i :: imgs) =>
      let d := process_images_to_markdown_stream env cfg (i :: imgs)
                 (request_id ++ "-vllm") w1 in
      mkRun (notice :: called :: trace d) (world d) (inr Normal)
  end.
Proof.
  unfold vllm_fallback, yield_from.
  destruct (convert_files_to_images env [file_path] (max_img_size cfg) w)
    as [[e|[|i imgs]] w1] eqn:Er.
  - unfold try_except, bind, observed, oracle, yield, emit, ret. simpl.
    rewrite Er. reflexivity.
  - unfold try_except, bind, observed, oracle, yield, emit, ret. simpl.
    rewrite Er. reflexivity.
  - pose proof (driver_run (i :: imgs) (request_id ++ "-vllm") w1) as Hd.
    destruct (uuid4 env w1) as [u w2].
    destruct (convert_to_markdown_stream env (i :: imgs) cfg w2) as [s w3].
    unfold try_except, bind, observed, oracle, yield, emit, ret. simpl.
    rewrite Er. simpl. rewrite Hd. simpl. rewrite app_nil_r. reflexivity.
Qed.

Transparent process_images_to_markdown_stream.

Opaque try_mistral vllm_fallback.

Lemma process_file_unfold (mc : option MistralOCRClient) (f : File) (w : World) :
  process_file env cfg mc f w =
  let '(u, w0) := uuid4 env w in
  let m := try_mistral env mc (name f) w0 in
  let complete := Yield (mkFragment FileComplete (Msg.file_complete (name f))) in
  match outcome m with
  | inl e => mkRun (trace m) (world m) (inl e)
  | inr false => mkRun (trace m ++ [complete]) (world m) (inr tt)
  | inr true =>
      let fb := vllm_fallback env cfg (PyStr.take 8 u) (name f) (world m) in
      match outcome fb with
      | inl e => mkRun (trace m ++ trace fb) (world fb) (inl e)
      | inr Continue => mkRun (trace m ++ trace fb) (world fb) (inr tt)
      | inr Normal => mkRun (trace m ++ trace fb ++ [complete]) (world fb) (inr tt)
      end
  end.
Proof.
  unfold process_file, bind, call, yield, emit, ret.
  destruct (uuid4 env w) as [u w0]. simpl.
  destruct (try_mistral env mc (name f) w0) as [tm wm [e|[|]]]; simpl;
    try reflexivity.
  destruct (vllm_fallback env cfg (PyStr.take 8 u) (name f) wm)
    as [tf wf [e|[|]]]; simpl; rewrite ?app_nil_r; reflexivity.
Qed.

Transparent try_mistral.
Opaque process_images_to_markdown_stream.

(** The loop body never raises, and what it does has one of the shapes of
    [file_events]. *)
Lemma process_file_cases (mc : option MistralOCRClient) (f : File) (w : World) :
  let run := process_file env cfg mc f w in
  outcome run = inr tt /\
  exists m r u u' w',
    trace run =
      file_events (name f) (max_img_size cfg) m r
        match r with
        | inr imgs =>
            driver_events imgs (PyStr.take 8 u ++ "-vllm") u'
              (fst (convert_to_markdown_stream env imgs cfg w'))
        | inl _ => []
        end /\
    (mc = None <-> m = None).
Proof.
  cbv zeta. rewrite process_file_unfold.
  destruct (uuid4 env w) as [u w0]. cbv zeta.
  assert (exists m wm,
            try_mistral env mc (name f) w0 =
            mkRun match m with Some mr => mistral_events (name f) mr | None => [] end
                  wm (inr match m with Some (inr _) => false | _ => true end) /\
            (mc = None <-> m = None)) as (m & wm & Hm & Hnone).
  { destruct mc as [c|].
    - rewrite try_mistral_run. cbv zeta.
      destruct (extract_text_from_file env c (name f) w0) as [t w1 [e|text]]; simpl.
      + exists (Some (inl e)), w1. split; [reflexivity|]. split; discriminate.
      + exists (Some (inr text)), w1. split; [reflexivity|]. split; discriminate.
    - exists None, w0. split; [reflexivity|]. split; reflexivity. }
  rewrite Hm. simpl.
  destruct m as [[e|text]|]; simpl.
  2: { split; [reflexivity|].
       exists (Some (inr text)), (inl (ValueError EmptyString)), u, u, w0.
       split; [reflexivity|exact Hnone]. }
  all: rewrite vllm_fallback_run;
    destruct (convert_files_to_images env [name f] (max_img_size cfg) wm)
      as [[e'|[|i imgs]] w1]; cbv zeta;
    [ split; [reflexivity|];
      eexists _, (inl e'), u, u, w0; split; [|exact Hnone]; reflexivity
    | split; [reflexivity|];
      eexists _, (inr []), u, u, w0; split; [|exact Hnone]; reflexivity
    | rewrite driver_run;
      destruct (uuid4 env w1) as [u' w2] eqn:Eu;
      destruct (convert_to_markdown_stream env (i :: imgs) cfg w2) as [st w3] eqn:Es;
      simpl; split; [reflexivity|];
      eexists _, (inr (i :: imgs)), u, u', w2; rewrite Es;
      split; [|exact Hnone]; reflexivity ].
Qed.

Transparent vllm_fallback process_images_to_markdown_stream.

Lemma for_each_files_run (mc : option MistralOCRClient) :
  forall (files : list File) (w : World),
    let run := for_each files (process_file env cfg mc) w in
    trace run = concat (map trace (file_runs env cfg mc files w)) /\
    outcome run = inr tt.
Proof.
  induction files as [|f files IH]; intros w.
  - split; reflexivity.
  - cbv zeta. simpl for_each. unfold bind.
    destruct (process_file_cases mc f w) as [Hout _]. cbv zeta in Hout.
    rewrite Hout. simpl.
    destruct (IH (world (process_file env cfg mc f w))) as [Ht Ho].
    cbv zeta in Ht, Ho. rewrite Ht, Ho. split; reflexivity.
Qed.

End RunFacts.

(** ** Reading the trace of a file *)

Section TraceFacts.

Local Open Scope list_scope.

Ltac by_events t :=
  induction t as [|[] ? ?]; simpl; intros; try congruence; auto.

Lemma fragments_app (a b : list Event) :
  fragments (a ++ b) = fragments a ++ fragments b.
Proof. by_events a. Qed.

Lemma fragments_yields (l : list Fragment) : fragments (map Yield l) = l.
Proof. induction l as [|x l IH]; simpl; [|rewrite IH]; reflexivity. Qed.

Lemma fragments_at_app (k : Site) (a b : list Event) :
  fragments_at k (a ++ b) = fragments_at k a ++ fragments_at k b.
Proof. unfold fragments_at. rewrite fragments_app. apply filter_app. Qed.

Lemma raster_calls_app (a b : list Event) :
  raster_calls (a ++ b) = raster_calls a ++ raster_calls b.
Proof. by_events a. Qed.

Lemma driver_calls_app (a b : list Event) :
  driver_calls (a ++ b) = driver_calls a ++ driver_calls b.
Proof. by_events a. Qed.

Lemma stream_calls_app (a b : list Event) :
  stream_calls (a ++ b) = stream_calls a ++ stream_calls b.
Proof. by_events a. Qed.

Lemma extract_calls_app (a b : list Event) :
  extract_calls (a ++ b) = extract_calls a ++ extract_calls b.
Proof. by_events a. Qed.

Lemma client_constructions_app (a b : list Event) :
  client_constructions (a ++ b) = client_constructions a ++ client_constructions b.
Proof. by_events a. Qed.

Lemma raster_calls_yields (l : list Fragment) : raster_calls (map Yield l) = [].
Proof. induction l; simpl; auto. Qed.

Lemma driver_calls_yields (l : list Fragment) : driver_calls (map Yield l) = [].
Proof. induction l; simpl; auto. Qed.

Lemma stream_calls_yields (l : list Fragment) : stream_calls (map Yield l) = [].
Proof. induction l; simpl; auto. Qed.

Lemma extract_calls_yields (l : list Fragment) : extract_calls (map Yield l) = [].
Proof. induction l; simpl; auto. Qed.

Lemma client_constructions_yields (l : list Fragment) :
  client_constructions (map Yield l) = [].
Proof. induction l; simpl; auto. Qed.

Lemma Site_eqb_eq (a b : Site) : Site_eqb a b = true <-> a = b.
Proof. destruct a, b; simpl; split; intros H; congruence. Qed.

Lemma filter_site_all (k : Site) (l : list Fragment) :
  Forall (fun f => site f = k) l ->
  filter (fun f => Site_eqb (site f) k) l = l.
Proof.
  induction 1 as [|x l Hx _ IH]; simpl; [reflexivity|].
  rewrite Hx. replace (Site_eqb k k) with true by (now destruct k).
  now rewrite IH.
Qed.

Lemma filter_site_none (p : Site -> bool) (k : Site) (l : list Fragment) :
  Forall (fun f => site f = k) l -> p k = false ->
  filter (fun f => p (site f)) l = [].
Proof.
  intros H Hp. induction H as [|x l Hx _ IH]; simpl; [reflexivity|].
  now rewrite Hx, Hp.
Qed.

Lemma vllm_chunk_fragments_site (rid : string) (n : nat) :
  forall chunks page,
    Forall (fun f => site f = VllmChunk) (vllm_chunk_fragments rid n page chunks).
Proof.
  induction chunks as [|c chunks IH]; intros page; simpl; constructor; auto.
Qed.

Lemma mistral_page_fragments_site (p text : string) :
  Forall (fun f => site f = MistralPage) (mistral_page_fragments p text).
Proof.
  unfold mistral_page_fragments. apply Forall_map, Forall_forall.
  intros [i pg] _. reflexivity.
Qed.

Lemma filter_chunks_same (rid : string) (n page : nat) (chunks : list string) :
  filter (fun f => Site_eqb (site f) VllmChunk)
         (vllm_chunk_fragments rid n page chunks)
  = vllm_chunk_fragments rid n page chunks.
Proof. apply filter_site_all, vllm_chunk_fragments_site. Qed.

Lemma filter_chunks_other (k : Site) (rid : string) (n page : nat)
    (chunks : list string) :
  k <> VllmChunk ->
  filter (fun f => Site_eqb (site f) k) (vllm_chunk_fragments rid n page chunks) = [].
Proof.
  intros Hk.
  apply (filter_site_none (fun s => Site_eqb s k) VllmChunk).
  - apply vllm_chunk_fragments_site.
  - destruct k; try reflexivity. contradiction.
Qed.

Lemma filter_pages_same (p text : string) :
  filter (fun f => Site_eqb (site f) MistralPage) (mistral_page_fragments p text)
  = mistral_page_fragments p text.
Proof. apply filter_site_all, mistral_page_fragments_site. Qed.

Lemma filter_pages_other (k : Site) (p text : string) :
  k <> MistralPage ->
  filter (fun f => Site_eqb (site f) k) (mistral_page_fragments p text) = [].
Proof.
  intros Hk.
  apply (filter_site_none (fun s => Site_eqb s k) MistralPage).
  - apply mistral_page_fragments_site.
  - destruct k; try reflexivity. contradiction.
Qed.

Lemma split_from_nonempty (sep : string) :
  forall s skip cur, PyStr.split_from skip sep cur s <> [].
Proof.
  induction s as [|c s IH]; intros skip cur.
  - discriminate.
  - destruct skip as [|k].
    + change (PyStr.split_from 0 sep cur (String c s))
        with (if prefix sep (String c s)
              then cur :: PyStr.split_from (String.length sep - 1) sep EmptyString s
              else PyStr.split_from 0 sep (cur ++ String c EmptyString)%string s).
      destruct (prefix sep (String c s)); [discriminate|apply IH].
    + change (PyStr.split_from (S k) sep cur (String c s))
        with (PyStr.split_from k sep cur s). apply IH.
Qed.

Lemma mistral_page_fragments_nonempty (p text : string) :
  mistral_page_fragments p text <> [].
Proof.
  unfold mistral_page_fragments, enumerate, PyStr.split.
  pose proof (split_from_nonempty page_separator text 0 EmptyString) as H.
  destruct (PyStr.split_from 0 page_separator EmptyString text); [contradiction|].
  discriminate.
Qed.

End TraceFacts.

Create Rewrite HintDb trace.

#[local] Hint Rewrite
  fragments_app fragments_yields raster_calls_app raster_calls_yields
  driver_calls_app driver_calls_yields stream_calls_app stream_calls_yields
  extract_calls_app extract_calls_yields
  client_constructions_app client_constructions_yields
  filter_app app_nil_r filter_chunks_same filter_pages_same : trace.

#[local] Hint Rewrite filter_chunks_other filter_pages_other
  using discriminate : trace.

(** ** The run of the orchestrator *)

Section OrchestratorFacts.

Context {World Handle : Type}.
Variable env : Env World Handle.
Variable cfg : Config.

Local Open Scope list_scope.

Lemma bind_run {A B} (m : Gen World A) (k : A -> Gen World B) (w : World) (a : A) :
  outcome (m w) = inr a ->
  bind m k w =
  mkRun (trace (m w) ++ trace (k a (world (m w))))
        (world (k a (world (m w)))) (outcome (k a (world (m w)))).
Proof. intros H. unfold bind. rewrite H. reflexivity. Qed.

(** Lines 140-152, by cases. *)
Lemma init_mistral_client_run (w : World) :
  init_mistral_client env w =
  if truthy (os_getenv env "MISTRAL_API_KEY" w)
  then
    let r := MistralOCRClient_init env w in
    match outcome r with
    | inr c => mkRun [Call_MistralOCRClient None] (world r) (inr (Some c))
    | inl e =>
        mkRun [Call_MistralOCRClient (Some e);
               Yield (mkFragment ClientInitWarning (Msg.client_init_warning e))]
              (world r) (inr None)
    end
  else mkRun [] w (inr None).
Proof.
  unfold init_mistral_client.
  pose proof (MistralOCRClient_init_trace env w) as Ht.
  generalize dependent (MistralOCRClient_init env). intros init Ht.
  unfold bind, ask. simpl.
  destruct (truthy (os_getenv env "MISTRAL_API_KEY" w)); [|reflexivity].
  unfold try_except, bind, observed, yield, emit, ret. simpl.
  destruct (init w) as [t w1 [e|c]]; simpl in *; subst t; reflexivity.
Qed.

Lemma init_mistral_client_outcome (w : World) :
  exists mc, outcome (init_mistral_client env w) = inr mc.
Proof.
  rewrite init_mistral_client_run.
  destruct (truthy _); [|eexists; reflexivity].
  cbv zeta. destruct (outcome (MistralOCRClient_init env w));
    eexists; reflexivity.
Qed.

(** The run over a batch that is not empty: the client is built, then the
    files are gone through in order, each in the world the one before left. *)
Lemma orchestrator_run (f : File) (files : list File) (w : World) (mc : option MistralOCRClient) :
  outcome (init_mistral_client env w) = inr mc ->
  let i := init_mistral_client env w in
  let run := process_uploaded_files_to_markdown env cfg (Some (f :: files)) w in
  trace run = trace i ++ concat (map trace (file_runs env cfg mc (f :: files) (world i)))
  /\ outcome run = inr tt.
Proof.
  intros Hi. cbv zeta.
  change (process_uploaded_files_to_markdown env cfg (Some (f :: files)) w)
    with (bind (init_mistral_client env)
               (fun mc => for_each (f :: files) (process_file env cfg mc)) w).
  rewrite (bind_run _ _ w mc Hi). cbn [trace outcome world].
  destruct (for_each_files_run env cfg mc (f :: files)
              (world (init_mistral_client env w))) as [Ht Ho].
  cbv zeta in Ht, Ho. rewrite Ht, Ho. split; reflexivity.
Qed.

(** A property of every run of the loop body holds of the runs of a batch,
    file by file. *)
Lemma file_runs_Forall2 (mc : option MistralOCRClient)
    (P : File -> Run World unit -> Prop) :
  (forall f w, P f (process_file env cfg mc f w)) ->
  forall files w, Forall2 P files (file_runs env cfg mc files w).
Proof.
  intros HP. induction files as [|f files IH]; intros w; simpl; constructor; auto.
Qed.

End OrchestratorFacts.

(** ** The pipeline, file by file *)

Ltac file_cases env cfg mc f w :=
  let Hout := fresh "Hout" in
  let m := fresh "m" in
  let r := fresh "r" in
  let Ht := fresh "Ht" in
  let Hmc := fresh "Hmc" in
  destruct (process_file_cases env cfg mc f w)
    as [Hout (m & r & ? & ? & ? & Ht & Hmc)];
  cbv zeta in Hout, Ht; rewrite ?Ht in *;
  destruct m as [[?|?]|]; destruct r as [?|[|? ?]];
  unfold file_events, mistral_events, driver_events in *.

Ltac stream_cases :=
  repeat match goal with
         | |- context [convert_to_markdown_stream ?e ?i ?c ?w] =>
             destruct (convert_to_markdown_stream e i c w) as [[? [?|]] ?]
         | H : context [convert_to_markdown_stream ?e ?i ?c ?w] |- _ =>
             destruct (convert_to_markdown_stream e i c w) as [[? [?|]] ?]
         end;
  cbn [fst snd] in *.

Section FileClaims.

Context {World Handle : Type}.
Variable env : Env World Handle.
Variable cfg : Config.

Local Open Scope list_scope.

Lemma In_raster_calls (t : list Event) ps sz res :
  In (Call_convert_files_to_images ps sz res) t -> In (ps, res) (raster_calls t).
Proof.
  induction t as [|ev t IH]; simpl; [tauto|].
  intros [->|H]; [left; reflexivity|].
  destruct ev; simpl; auto.
Qed.

Lemma In_extract_calls (t : list Event) p res :
  In (Call_extract_text_from_file p res) t -> In (p, res) (extract_calls t).
Proof.
  induction t as [|ev t IH]; simpl; [tauto|].
  intros [->|H]; [left; reflexivity|].
  destruct ev; simpl; auto.
Qed.

(** The loop goes on to the next file after every file. *)
Lemma for_each_files_cons (mc : option MistralOCRClient) (f : File)
    (rest : list File) (w : World) :
  let r := process_file env cfg mc f w in
  let loop := for_each (f :: rest) (process_file env cfg mc) w in
  let next := for_each rest (process_file env cfg mc) (world r) in
  trace loop = trace r ++ trace next /\ world loop = world next /\
  outcome loop = inr tt.
Proof.
  cbv zeta.
  destruct (process_file_cases env cfg mc f w) as [Hout _]. cbv zeta in Hout.
  change (for_each (f :: rest) (process_file env cfg mc) w)
    with (bind (process_file env cfg mc f)
               (fun _ => for_each rest (process_file env cfg mc)) w).
  rewrite (bind_run _ _ w tt Hout). cbn [trace world outcome].
  repeat split.
  apply (for_each_files_run env cfg mc rest).
Qed.


(** C5, as the code has it: where the call to the hosted backend raises for
    a file, the orchestrator yields the Mistral error fragment for it, with
    the text of the exception, and enters the fallback: the notice, then the
    rasterizer on that file.  The driver and the conversion routine are
    invoked where the rasterizer gives page images; where it gives none the
    could-not-convert warning ends the file, and where it raises the
    fallback error and the file-complete fragment do.  The loop body does
    not raise, and the next file follows. *)
Theorem C5_backend_a_failure_falls_back
    (mc : option MistralOCRClient) (f : File) (rest : list File) (w : World)
    (p : string) (e : Exception) :
  let r := process_file env cfg mc f w in
  In (Call_extract_text_from_file p (inl e)) (trace r) ->
  (exists res tail,
     trace r =
       [Yield (mkFragment MistralAttempt
                 ("⏳ Attempting Mistral OCR for " ++ basename (name f) ++ "..."
                  ++ nl ++ nl ++ "---" ++ nl ++ nl)%string);
        Call_extract_text_from_file (name f) (inl e);
        Yield (mkFragment MistralError
                 ("⚠️ **Mistral OCR Error for " ++ basename (name f) ++ "**: "
                  ++ exn_str e ++ ". Falling back to VLLM."
                  ++ nl ++ nl ++ "---" ++ nl ++ nl)%string);
        Yield (mkFragment VllmNotice
                 ("⏳ Using default VLLM model for " ++ basename (name f)
                  ++ " (converting to images first)..."
                  ++ nl ++ nl ++ "---" ++ nl ++ nl)%string);
        Call_convert_files_to_images [name f] (max_img_size cfg) res] ++ tail
     /\ match res with
        | inr (i :: imgs) =>
            driver_calls tail = [i :: imgs] /\
            exists stream, stream_calls tail = [(i :: imgs, stream)]
        | inr [] =>
            tail =
              [Yield (mkFragment RasterEmpty
                        ("⚠️ Could not convert " ++ basename (name f)
                         ++ " to images for VLLM processing."
                         ++ nl ++ nl ++ "---" ++ nl ++ nl)%string)]
        | inl e' =>
            tail =
              [Yield (mkFragment VllmFallbackError
                        ("❌ **Error in VLLM fallback for " ++ basename (name f)
                         ++ "**: " ++ exn_str e'
                         ++ nl ++ nl ++ "---" ++ nl ++ nl)%string);
               Yield (mkFragment FileComplete
                        ("✅ Finished processing " ++ basename (name f) ++ "."
                         ++ nl ++ nl ++ "*****" ++ nl ++ nl)%string)]
        end)
  /\ outcome r = inr tt
  /\ trace (for_each (f :: rest) (process_file env cfg mc) w) =
       trace r ++ trace (for_each rest (process_file env cfg mc) (world r))
  /\ outcome (for_each (f :: rest) (process_file env cfg mc) w) = inr tt.
Proof.
  cbv zeta. intros Hin.
  destruct (for_each_files_cons mc f rest w) as (Hloop & _ & Hok).
  cbv zeta in Hloop, Hok. rewrite Hloop, Hok. clear Hloop Hok.
  apply In_extract_calls in Hin.
  file_cases env cfg mc f w; stream_cases;
    simpl in Hin; autorewrite with trace in Hin; simpl in Hin;
    try (destruct Hin as [Hin|[]]; inversion Hin; subst); try contradiction.
  all: split; [|auto]; eexists _, _; (split; [reflexivity|]);
    try reflexivity;
    (split; [|eexists]); simpl; autorewrite with trace; reflexivity.
Qed.


(** The fragments of the chunks: behind the progress header, with a page
    between 1 and the number of page images, where there are several page
    images, and bare where there is one or none. *)
Lemma chunk_fragments_headed (rid : string) (n : nat) :
  forall cs page,
    1 <= page ->
    Forall2 (fun c fr =>
               if (1 <? n)%nat
               then exists k,
                      1 <= k <= n /\
                      text fr =
                        (("📄 **VLLM Conversion Progress** `[Request " ++ rid
                          ++ "]` (Processing page " ++ PyStr.str_of_nat k ++ " of "
                          ++ PyStr.str_of_nat n ++ ")" ++ nl ++ nl)
                         ++ process_tags c)%string
               else text fr = process_tags c)
            cs (vllm_chunk_fragments rid n page cs).
Proof.
  induction cs as [|c cs IH]; intros page Hp; cbn [vllm_chunk_fragments];
    constructor.
  - destruct (1 <? n)%nat eqn:Hn; [|reflexivity].
    apply Nat.ltb_lt in Hn. exists (Nat.min page n).
    split; [lia|reflexivity].
  - apply IH. unfold next_page. destruct (PyStr.contains "---" c); lia.
Qed.

(** C9, as the code has it: what the conversion routine yields reaches the
    consumer sanitized, behind the driver's progress header where there are
    several page images and with nothing before it where there is one; the
    fragment the driver yields when the routine raises carries the message
    of the exception as it is. *)
Theorem C9_chunks_sanitized_error_raw
    (mc : option MistralOCRClient) (f : File) (w : World)
    (imgs chunks : list string) (raised : option Exception) :
  let t := trace (process_file env cfg mc f w) in
  In (imgs, (chunks, raised)) (stream_calls t) ->
  let n := List.length imgs in
  exists request_id,
    Forall2 (fun c fr =>
               if (1 <? n)%nat
               then exists k,
                      1 <= k <= n /\
                      text fr =
                        (("📄 **VLLM Conversion Progress** `[Request " ++ request_id
                          ++ "]` (Processing page " ++ PyStr.str_of_nat k ++ " of "
                          ++ PyStr.str_of_nat n ++ ")" ++ nl ++ nl)
                         ++ process_tags c)%string
               else text fr = process_tags c)
            chunks (fragments_at VllmChunk t)
    /\ fragments_at VllmStreamError t =
         match raised with
         | Some e =>
             [mkFragment VllmStreamError
                ("❌ **Error in VLLM processing (Request " ++ request_id
                 ++ ")**: " ++ exn_str e)%string]
         | None => []
         end.
Proof.
  cbv zeta. intros Hin.
  file_cases env cfg mc f w; stream_cases;
    simpl in Hin; autorewrite with trace in Hin; simpl in Hin;
    try contradiction;
    destruct Hin as [Hin|[]]; inversion Hin; subst;
    unfold fragments_at; simpl; autorewrite with trace; simpl;
    autorewrite with trace;
    eexists; (split; [apply chunk_fragments_headed; lia|reflexivity]).
Qed.

End FileClaims.

(** ** The driver *)

Section DriverClaims.

Context {World Handle : Type}.
Variable env : Env World Handle.
Variable cfg : Config.

Local Open Scope list_scope.

Lemma next_page_one_delimiter (page : nat) (c : string) :
  PyStr.count "---" c = 1 -> next_page page c = 2.
Proof.
  intros H. unfold next_page.
  destruct (PyStr.contains "---" c) eqn:Hc.
  - rewrite H. reflexivity.
  - unfold PyStr.count in H. rewrite (count_from_absent "---" c 0 Hc) in H.
    discriminate.
Qed.

Lemma chunk_fragments_one_delimiter (rid : string) (n : nat) :
  forall chunks page,
    (forall c, In c chunks -> PyStr.count "---" c = 1) ->
    forall k c,
      nth_error chunks k = Some c ->
      nth_error (vllm_chunk_fragments rid n page chunks) k =
      Some (mkFragment VllmChunk
              ((if (1 <? n)%nat
                then Msg.progress_header rid
                       (Nat.min (match k with O => page | S _ => 2 end) n) n
                else EmptyString) ++ process_tags c)%string).
Proof.
  induction chunks as [|c0 chunks IH]; intros page Hone k c Hk.
  - destruct k; discriminate.
  - destruct k as [|k]; simpl in Hk |- *.
    + inversion Hk; subst. reflexivity.
    + rewrite (IH (next_page page c0)) with (c := c); auto.
      * rewrite next_page_one_delimiter by (apply Hone; left; reflexivity).
        destruct k; reflexivity.
      * intros c' Hc'. apply Hone. right. exact Hc'.
Qed.


End DriverClaims.

(** ** The pipeline over a batch *)

Section BatchClaims.

Context {World Handle : Type}.
Variable env : Env World Handle.
Variable cfg : Config.

Local Open Scope list_scope.

Lemma process_file_closing (mc : option MistralOCRClient) (f : File) (w : World) :
  let t := trace (process_file env cfg mc f w) in
  (filter closes_file (fragments t) =
     [mkFragment FileComplete (Msg.file_complete (name f))]
   /\ List.length (fragments_at FileComplete t) = 1
   /\ filter empty_raster (raster_calls t) = [])
  \/
  (filter closes_file (fragments t) =
     [mkFragment RasterEmpty (Msg.raster_empty (name f))]
   /\ List.length (fragments_at FileComplete t) = 0
   /\ List.length (filter empty_raster (raster_calls t)) = 1).
Proof.
  cbv zeta.
  assert (forall rid n page cs,
            filter closes_file (vllm_chunk_fragments rid n page cs) = []) as Hc.
  { intros. apply (filter_site_none
                     (fun s => (Site_eqb s FileComplete || Site_eqb s RasterEmpty)%bool)
                     VllmChunk); [apply vllm_chunk_fragments_site|reflexivity]. }
  assert (forall p text, filter closes_file (mistral_page_fragments p text) = []) as Hp.
  { intros. apply (filter_site_none
                     (fun s => (Site_eqb s FileComplete || Site_eqb s RasterEmpty)%bool)
                     MistralPage); [apply mistral_page_fragments_site|reflexivity]. }
  file_cases env cfg mc f w; stream_cases; unfold fragments_at; simpl;
    autorewrite with trace; simpl; autorewrite with trace;
    rewrite ?Hc, ?Hp; simpl; auto.
Qed.

Lemma batch_closing (mc : option MistralOCRClient) :
  forall (files : list File) (w : World),
    let t := concat (map trace (file_runs env cfg mc files w)) in
    Forall2 (fun f fr =>
               fr = mkFragment FileComplete (Msg.file_complete (name f)) \/
               fr = mkFragment RasterEmpty (Msg.raster_empty (name f)))
            files (filter closes_file (fragments t))
    /\ List.length (fragments_at FileComplete t)
       + List.length (filter empty_raster (raster_calls t))
       = List.length files.
Proof.
  induction files as [|f files IH]; intros w; cbv zeta.
  - split; [constructor|reflexivity].
  - simpl file_runs. simpl map. simpl concat.
    destruct (IH (world (process_file env cfg mc f w))) as [IH1 IH2].
    cbv zeta in IH1, IH2.
    rewrite fragments_at_app, raster_calls_app, fragments_app, !filter_app,
      !length_app.
    destruct (process_file_closing mc f w) as [(H1 & H2 & H3)|(H1 & H2 & H3)];
      cbv zeta in H1, H2, H3; rewrite H1, H2, ?H3.
    + split; [constructor; auto|]. simpl. lia.
    + split; [constructor; auto|]. simpl. lia.
Qed.

(** C1, as the code has it: for every file of the batch, in the order of the
    batch, the orchestrator yields either the file-complete fragment or,
    where the rasterizer gave no page images and the loop went on with
    [continue], the could-not-convert fragment in its place; the
    file-complete fragments and the empty rasterizations together number the
    files. *)
Theorem C1_file_complete_unless_skipped (files : list File) (w : World) :
  let t := trace (process_uploaded_files_to_markdown env cfg (Some files) w) in
  Forall2 (fun f fr =>
             fr = mkFragment FileComplete
                    ("✅ Finished processing " ++ basename (name f) ++ "."
                     ++ nl ++ nl ++ "*****" ++ nl ++ nl)%string \/
             fr = mkFragment RasterEmpty
                    ("⚠️ Could not convert " ++ basename (name f)
                     ++ " to images for VLLM processing."
                     ++ nl ++ nl ++ "---" ++ nl ++ nl)%string)
          files (filter closes_file (fragments t))
  /\ List.length (fragments_at FileComplete t)
     + List.length (filter empty_raster (raster_calls t))
     = List.length files.
Proof.
  cbv zeta. destruct files as [|f files].
  - split; [constructor|reflexivity].
  - destruct (init_mistral_client_outcome env w) as [mc Hmc].
    destruct (orchestrator_run env cfg f files w mc Hmc) as [Ht _].
    cbv zeta in Ht. rewrite Ht. clear Ht.
    destruct (batch_closing mc (f :: files) (world (init_mistral_client env w)))
      as [B1 B2]. cbv zeta in B1, B2.
    rewrite fragments_at_app, raster_calls_app, fragments_app, !filter_app,
      !length_app.
    assert (filter closes_file (fragments (trace (init_mistral_client env w))) = []
            /\ fragments_at FileComplete (trace (init_mistral_client env w)) = []
            /\ raster_calls (trace (init_mistral_client env w)) = [])
      as (I1 & I2 & I3).
    { rewrite init_mistral_client_run.
      destruct (truthy _); [|repeat split].
      cbv zeta. destruct (outcome (MistralOCRClient_init env w)); repeat split. }
    rewrite I1, I2, I3. simpl. split; [exact B1|exact B2].
Qed.

(** What a file does to the trace where there is no client: no call to the
    hosted backend, one call to the rasterizer on the file, and the driver
    called with the page images where there are any. *)
Lemma batch_without_client :
  forall (files : list File) (w : World),
    let t := concat (map trace (file_runs env cfg None files w)) in
    extract_calls t = []
    /\ client_constructions t = []
    /\ fragments_at MistralAttempt t = []
    /\ fragments_at ClientInitWarning t = []
    /\ map fst (raster_calls t) = map (fun f => [name f]) files
    /\ driver_calls t =
         flat_map (fun c => match snd c with
                            | inr (i :: imgs) => [i :: imgs]
                            | _ => []
                            end) (raster_calls t).
Proof.
  induction files as [|f files IH]; intros w; cbv zeta.
  - repeat split.
  - simpl file_runs. simpl map. simpl concat.
    destruct (IH (world (process_file env cfg None f w)))
      as (IH1 & IH2 & IH3 & IH4 & IH5 & IH6).
    cbv zeta in IH1, IH2, IH3, IH4, IH5, IH6.
    rewrite !fragments_at_app, extract_calls_app, client_constructions_app,
      raster_calls_app, driver_calls_app, map_app, flat_map_app.
    rewrite IH1, IH2, IH3, IH4, IH5, IH6.
    file_cases env cfg (@None (@MistralOCRClient Handle)) f w;
      try (destruct Hmc as [Hmc _]; specialize (Hmc eq_refl); discriminate);
      stream_cases; unfold fragments_at; simpl; autorewrite with trace; simpl;
      autorewrite with trace; repeat split; reflexivity.
Qed.

(** C6, as the code has it: where the credential is set and building the
    client raises, the run yields one warning fragment, with the text of the
    exception, and attempts the construction once; no call to the hosted
    backend follows.  Every file of the batch goes to the rasterizer, and to
    the driver exactly the files for which the rasterizer gives page
    images. *)
Theorem C6_client_construction_failure
    (f : File) (files : list File) (w : World) (e : Exception) :
  truthy (os_getenv env "MISTRAL_API_KEY" w) = true ->
  outcome (MistralOCRClient_init env w) = inl e ->
  let t := trace (process_uploaded_files_to_markdown env cfg (Some (f :: files)) w) in
  let warning :=
    mkFragment ClientInitWarning
      ("⚠️ **Warning**: Could not initialize Mistral OCR client: " ++ exn_str e
       ++ ". Falling back to default processing."
       ++ nl ++ nl ++ "---" ++ nl ++ nl)%string in
  fragments_at ClientInitWarning t = [warning]
  /\ client_constructions t = [Some e]
  /\ extract_calls t = []
  /\ fragments_at MistralAttempt t = []
  /\ map fst (raster_calls t) = map (fun f => [name f]) (f :: files)
  /\ driver_calls t =
       flat_map (fun c => match snd c with
                          | inr (i :: imgs) => [i :: imgs]
                          | _ => []
                          end) (raster_calls t)
  /\ t = [Call_MistralOCRClient (Some e); Yield warning]
         ++ trace (for_each (f :: files) (process_file env cfg None)
                     (world (MistralOCRClient_init env w))).
Proof.
  intros Hkey Hinit. cbv zeta.
  pose proof (init_mistral_client_run env w) as Hi.
  rewrite Hkey in Hi. cbv zeta in Hi. rewrite Hinit in Hi.
  assert (outcome (init_mistral_client env w) = inr None) as Hnone
      by (rewrite Hi; reflexivity).
  destruct (orchestrator_run env cfg f files w None Hnone) as [Ht _].
  cbv zeta in Ht. rewrite Ht, Hi. cbn [trace world]. clear Ht.
  destruct (for_each_files_run env cfg None (f :: files)
              (world (MistralOCRClient_init env w))) as [Hloop _].
  cbv zeta in Hloop. rewrite Hloop. clear Hloop.
  destruct (batch_without_client (f :: files) (world (MistralOCRClient_init env w)))
    as (B1 & B2 & B3 & B4 & B5 & B6).
  cbv zeta in B1, B2, B3, B4, B5, B6.
  rewrite !fragments_at_app, extract_calls_app, client_constructions_app,
    raster_calls_app, driver_calls_app.
  rewrite B1, B2, B3, B4, B6.
  repeat split; try reflexivity. exact B5.
Qed.

(** C10: for a batch that is absent or empty the orchestrator yields the
    one no-files message and stops: no client is built and no backend or
    rasterizer is called, and the world is left as it was. *)
Theorem C10_no_files (w : World) :
  process_uploaded_files_to_markdown env cfg None w =
    mkRun [Yield (mkFragment NoFilesMessage
                    "No files uploaded. Please upload one or more documents.")]
          w (inr tt)
  /\ process_uploaded_files_to_markdown env cfg (Some []) w =
       process_uploaded_files_to_markdown env cfg None w
  /\ filter is_call
        (trace (process_uploaded_files_to_markdown env cfg None w)) = [].
Proof. repeat split. Qed.

End BatchClaims.

(** ** More on the pipeline *)

Section PipelineFacts.

Context {World Handle : Type}.
Variable env : Env World Handle.
Variable cfg : Config.

Local Open Scope list_scope.

(** Whatever the collaborators raise, the orchestrator's generator ends
    without an exception. *)
Theorem orchestrator_never_raises (files : option (list File)) (w : World) :
  outcome (process_uploaded_files_to_markdown env cfg files w) = inr tt.
Proof.
  destruct files as [[|f files]|]; try reflexivity.
  destruct (init_mistral_client_outcome env w) as [mc Hmc].
  apply (orchestrator_run env cfg f files w mc Hmc).
Qed.

(** Called with a list of page images the driver does not raise: it yields
    one fragment for every chunk of the conversion routine, in order, and
    after them one error fragment exactly when the routine raised; the
    chunks yielded before the exception are not lost.  For at most one page
    image the fragments are the sanitized chunks with nothing before
    them. *)
Lemma driver_on_a_list
    (images_list : list string) (request_id_prefix : string) (w : World) :
  let r := process_images_to_markdown_stream env cfg images_list request_id_prefix w in
  let s := fst (convert_to_markdown_stream env images_list cfg (snd (uuid4 env w))) in
  outcome r = inr tt
  /\ map site (fragments (trace r)) =
       repeat VllmChunk (List.length (fst s))
       ++ match snd s with Some _ => [VllmStreamError] | None => [] end
  /\ (List.length images_list <= 1 ->
      map text (fragments_at VllmChunk (trace r)) = map process_tags (fst s)).
Proof.
  cbv zeta. rewrite driver_run.
  destruct (uuid4 env w) as [u w1]. cbn [fst snd].
  destruct (convert_to_markdown_stream env images_list cfg w1) as [[chunks raised] w2].
  cbn [fst snd trace outcome]. split; [reflexivity|].
  unfold driver_events, fragments_at. cbn [fst snd]. simpl fragments.
  autorewrite with trace.
  assert (forall rid n page cs,
            map site (vllm_chunk_fragments rid n page cs) =
            repeat VllmChunk (List.length cs)) as Hsites.
  { intros rid n page cs. revert page.
    induction cs as [|c cs IH]; intros page; simpl; [|rewrite IH]; reflexivity. }
  split.
  - rewrite map_app, Hsites. destruct raised; reflexivity.
  - intros Hn.
    assert ((1 <? List.length images_list)%nat = false) as Hlt
        by (apply Nat.ltb_ge; exact Hn).
    assert (forall page cs,
              map text (vllm_chunk_fragments
                          (request_id_prefix ++ "-" ++ PyStr.take 8 u)%string
                          (List.length images_list) page cs) =
              map process_tags cs) as Htext.
    { intros page cs. revert page.
      induction cs as [|c cs IH]; intros page; simpl; [reflexivity|].
      rewrite Hlt, IH. reflexivity. }
    destruct raised; simpl; autorewrite with trace; apply Htext.
Qed.

(** The driver, by what it is called with.  With a list of page images,
    empty or not, it does not raise: one fragment for every chunk of the
    conversion routine, in order, then one error fragment exactly when the
    routine raised, and for at most one page image the sanitized chunks
    with nothing before them.  With [None] it raises [TypeError] from the
    log line, before the [try], having drawn the request id and yielded
    nothing. *)
Theorem driver_chunks_then_error
    (images_list : option (list string)) (request_id_prefix : string) (w : World) :
  let r := process_images_to_markdown_stream_entry env cfg images_list
             request_id_prefix w in
  match images_list with
  | Some l =>
      let s := fst (convert_to_markdown_stream env l cfg (snd (uuid4 env w))) in
      outcome r = inr tt
      /\ map site (fragments (trace r)) =
           repeat VllmChunk (List.length (fst s))
           ++ match snd s with Some _ => [VllmStreamError] | None => [] end
      /\ (List.length l <= 1 ->
          map text (fragments_at VllmChunk (trace r)) = map process_tags (fst s))
  | None =>
      r = mkRun [] (snd (uuid4 env w))
            (inl (mkException "TypeError" "object of type 'NoneType' has no len()"))
  end.
Proof.
  cbv zeta. destruct images_list as [l|].
  - apply (driver_on_a_list l request_id_prefix w).
  - unfold process_images_to_markdown_stream_entry, bind, call, raise.
    destruct (uuid4 env w) as [u w1]. reflexivity.
Qed.


(** What a file does to the trace where there is a client: one attempt
    fragment and one call to the hosted backend, on the file's path. *)
Lemma batch_with_client (c : MistralOCRClient) :
  forall (files : list File) (w : World),
    let t := concat (map trace (file_runs env cfg (Some c) files w)) in
    client_constructions t = []
    /\ fragments_at ClientInitWarning t = []
    /\ map fst (extract_calls t) = map name files
    /\ fragments_at MistralAttempt t =
         map (fun f => mkFragment MistralAttempt (Msg.mistral_attempt (name f))) files.
Proof.
  induction files as [|f files IH]; intros w; cbv zeta.
  - repeat split.
  - simpl file_runs. simpl map. simpl concat.
    destruct (IH (world (process_file env cfg (Some c) f w)))
      as (IH1 & IH2 & IH3 & IH4).
    cbv zeta in IH1, IH2, IH3, IH4.
    rewrite !fragments_at_app, extract_calls_app, client_constructions_app, map_app.
    rewrite IH1, IH2, IH3, IH4.
    file_cases env cfg (Some c) f w;
      try (destruct Hmc as [_ Hmc]; specialize (Hmc eq_refl); discriminate);
      stream_cases; unfold fragments_at; simpl; autorewrite with trace; simpl;
      autorewrite with trace; repeat split; reflexivity.
Qed.

Lemma filter_attempts_yields (k : Site) (l : list Fragment) :
  Forall (fun fr => site fr = k) l ->
  k <> MistralAttempt ->
  filter attempt_or_extract (map Yield l) = [].
Proof.
  intros H Hk. induction H as [|x l Hx _ IH]; simpl; [reflexivity|].
  rewrite Hx. destruct k; try (exfalso; apply Hk; reflexivity); exact IH.
Qed.

Lemma filter_attempts_chunks (rid : string) (n page : nat) (cs : list string) :
  filter attempt_or_extract (map Yield (vllm_chunk_fragments rid n page cs)) = [].
Proof.
  apply (filter_attempts_yields VllmChunk);
    [apply vllm_chunk_fragments_site|discriminate].
Qed.

Lemma filter_attempts_pages (p text : string) :
  filter attempt_or_extract (map Yield (mistral_page_fragments p text)) = [].
Proof.
  apply (filter_attempts_yields MistralPage);
    [apply mistral_page_fragments_site|discriminate].
Qed.

(** For a file, where there is a client: the attempt fragment, then the
    call to the hosted backend on the file's path, and no other of either. *)
Lemma file_attempt_then_extract (c : MistralOCRClient) (f : File) (w : World) :
  exists r,
    filter attempt_or_extract (trace (process_file env cfg (Some c) f w)) =
    [Yield (mkFragment MistralAttempt (Msg.mistral_attempt (name f)));
     Call_extract_text_from_file (name f) r].
Proof.
  file_cases env cfg (Some c) f w;
    try (destruct Hmc as [_ Hmc]; specialize (Hmc eq_refl); discriminate);
    stream_cases; eexists; cbn [app mistral_events];
    rewrite ?filter_app; cbn [filter attempt_or_extract site Site_eqb app];
    rewrite ?filter_app, ?filter_attempts_chunks, ?filter_attempts_pages;
    cbn [filter attempt_or_extract site Site_eqb app]; reflexivity.
Qed.

Lemma batch_attempts_in_order (c : MistralOCRClient) :
  forall (files : list File) (w : World),
    exists results,
      List.length results = List.length files /\
      filter attempt_or_extract
        (concat (map trace (file_runs env cfg (Some c) files w))) =
      flat_map (fun '(f, r) =>
                  [Yield (mkFragment MistralAttempt (Msg.mistral_attempt (name f)));
                   Call_extract_text_from_file (name f) r])
               (combine files results).
Proof.
  induction files as [|f files IH]; intros w.
  - exists []. split; reflexivity.
  - destruct (file_attempt_then_extract c f w) as [r Hr].
    destruct (IH (world (process_file env cfg (Some c) f w))) as (rs & Hlen & Hrs).
    exists (r :: rs). split; [simpl; rewrite Hlen; reflexivity|].
    simpl file_runs. simpl map. simpl concat.
    rewrite filter_app, Hr, Hrs. reflexivity.
Qed.


(** Where the rasterizer raises for a file, the orchestrator yields the
    fallback error fragment with the text of the exception, does not invoke
    the driver, and still yields the file-complete fragment: the last three
    events for the file are the call, the error and the file-complete
    fragment. *)
Theorem rasterizer_failure_completes_file
    (mc : option MistralOCRClient) (f : File) (w : World)
    (ps : list string) (sz : Z) (e : Exception) :
  let r := process_file env cfg mc f w in
  In (Call_convert_files_to_images ps sz (inl e)) (trace r) ->
  let error :=
    mkFragment VllmFallbackError
      ("❌ **Error in VLLM fallback for " ++ basename (name f) ++ "**: "
       ++ exn_str e ++ nl ++ nl ++ "---" ++ nl ++ nl)%string in
  let complete :=
    mkFragment FileComplete
      ("✅ Finished processing " ++ basename (name f) ++ "."
       ++ nl ++ nl ++ "*****" ++ nl ++ nl)%string in
  fragments_at VllmFallbackError (trace r) = [error]
  /\ driver_calls (trace r) = []
  /\ stream_calls (trace r) = []
  /\ fragments_at FileComplete (trace r) = [complete]
  /\ exists pre,
       trace r = pre ++
         [Call_convert_files_to_images [name f] (max_img_size cfg) (inl e);
          Yield error; Yield complete].
Proof.
  cbv zeta. intros Hin.
  apply In_raster_calls in Hin.
  file_cases env cfg mc f w; stream_cases;
    simpl in Hin; autorewrite with trace in Hin; simpl in Hin;
    try (destruct Hin as [Hin|[]]; inversion Hin; subst); try contradiction.
  - repeat split; try reflexivity.
    eexists [_; _; _; _]. reflexivity.
  - repeat split; try reflexivity.
    eexists [_]. reflexivity.
Qed.

(** For every file the hosted backend is called at most once and the
    rasterizer at most once, and the rasterizer is called exactly when no
    call to the hosted backend returned. *)
Theorem backend_a_success_or_rasterizer
    (mc : option MistralOCRClient) (f : File) (w : World) :
  let t := trace (process_file env cfg mc f w) in
  List.length (extract_calls t) <= 1
  /\ List.length (filter (fun c => match snd c with inr _ => true | inl _ => false end)
                         (extract_calls t))
     + List.length (raster_calls t) = 1
  /\ (mc = None -> extract_calls t = []).
Proof.
  cbv zeta.
  file_cases env cfg mc f w; stream_cases; simpl; autorewrite with trace; simpl;
    autorewrite with trace; simpl; repeat split; auto;
    intros Hn; destruct Hmc as [Hmc _]; specialize (Hmc Hn); discriminate.
Qed.

End PipelineFacts.

(** ** More on the sanitizer *)

Section SanitizerFacts.

Local Open Scope bool_scope.

Lemma prefix_nil (s : string) : prefix EmptyString s = true.
Proof. now destruct s. Qed.

Lemma contains_first_char (c : ascii) (u s : string) :
  PyStr.contains (String c u) s = true ->
  PyStr.contains (String c EmptyString) s = true.
Proof.
  induction s as [|a s IH]; intros H.
  - discriminate H.
  - rewrite contains_cons in *. apply orb_true_iff in H as [H|H].
    + apply prefix_cons in H as [-> _].
      assert (prefix (String a EmptyString) (String a s) = true) as ->
          by (apply prefix_cons; split; [reflexivity|apply prefix_nil]).
      reflexivity.
    + rewrite (IH H). apply orb_true_r.
Qed.

(** The sanitizer leaves a text as it is exactly when the text holds none of
    the eight raw tokens. *)
Theorem process_tags_fixed_iff (s : string) :
  process_tags s = s <->
  Forall (fun t => PyStr.contains t s = false) raw_tokens.
Proof.
  split.
  - intros H. rewrite <- H. apply process_tags_clean.
  - apply process_tags_fixed.
Qed.

(** A text with no ["<"] in it goes through the sanitizer unchanged. *)
Theorem process_tags_without_angle (s : string) :
  PyStr.contains "<" s = false -> process_tags s = s.
Proof.
  intros H. apply process_tags_fixed. unfold raw_tokens.
  repeat constructor; apply not_true_is_false; intros Hc;
    apply contains_first_char in Hc; congruence.
Qed.

Lemma length_app (x y : string) :
  String.length (x ++ y) = String.length x + String.length y.
Proof. induction x as [|a x IH]; simpl; [|rewrite IH]; reflexivity. Qed.

Lemma replace_from_length (old new : string) :
  1 <= String.length old ->
  String.length old <= String.length new ->
  forall s k,
    String.length s <= String.length (PyStr.replace_from k old new s) + k.
Proof.
  intros Hne Hlen. induction s as [|a s IH]; intros k.
  - rewrite replace_from_nil. simpl. lia.
  - destruct k as [|k].
    + rewrite replace_from_scan.
      destruct (prefix old (String a s)) eqn:Hp.
      * rewrite length_app. specialize (IH (String.length old - 1)).
        simpl. lia.
      * specialize (IH 0). simpl. lia.
    + rewrite replace_from_skip. specialize (IH k). simpl. lia.
Qed.

Lemma replace_length (old new s : string) :
  old <> EmptyString ->
  String.length old <= String.length new ->
  String.length s <= String.length (PyStr.replace old new s).
Proof.
  intros Hne Hlen. destruct old as [|c u]; [contradiction|].
  unfold PyStr.replace.
  assert (1 <= String.length (String c u)) as H1 by (simpl; lia).
  pose proof (replace_from_length (String c u) new H1 Hlen s 0). lia.
Qed.

(** The sanitizer never makes a text shorter. *)
Theorem process_tags_length (s : string) :
  String.length s <= String.length (process_tags s).
Proof.
  unfold process_tags.
  repeat (etransitivity;
          [|apply replace_length; [discriminate|simpl; lia]]).
  apply le_n.
Qed.

End SanitizerFacts.

(** ** Joining and splitting the pages *)

Section SplitFacts.

Local Open Scope bool_scope.

Lemma take_cons (n : nat) (a : ascii) (y : string) :
  PyStr.take (S n) (String a y) = String a (PyStr.take n y).
Proof. reflexivity. Qed.

Lemma append_nil_r (s : string) : (s ++ EmptyString)%string = s.
Proof. induction s as [|a s IH]; simpl; [|rewrite IH]; reflexivity. Qed.

Lemma append_assoc (x y z : string) :
  ((x ++ y) ++ z)%string = (x ++ y ++ z)%string.
Proof. induction x as [|a x IH]; simpl; [|rewrite IH]; reflexivity. Qed.

Lemma append_snoc (cur : string) (a : ascii) (p : string) :
  ((cur ++ String a EmptyString) ++ p)%string = (cur ++ String a p)%string.
Proof. induction cur as [|c cur IH]; simpl; [|rewrite IH]; reflexivity. Qed.

Lemma prefix_app_self (s r : string) : prefix s (s ++ r) = true.
Proof.
  induction s as [|a s IH]; [apply prefix_nil|].
  rewrite string_app_cons. apply prefix_cons. now split.
Qed.

Lemma prefix_app (t : string) :
  forall s x, prefix t s = true -> prefix t (s ++ x) = true.
Proof.
  induction t as [|b t IH]; intros s x H; [apply prefix_nil|].
  destruct s as [|a s]; [discriminate H|].
  rewrite string_app_cons. apply prefix_cons in H as [-> H].
  apply prefix_cons. split; [reflexivity|]. now apply IH.
Qed.

Lemma contains_app (t x : string) :
  forall s, PyStr.contains t s = true -> PyStr.contains t (s ++ x) = true.
Proof.
  induction s as [|a s IH]; intros H.
  - destruct t as [|b t]; [|discriminate H].
    destruct x; reflexivity.
  - rewrite string_app_cons, contains_cons.
    rewrite contains_cons in H. apply orb_true_iff in H as [H|H].
    + rewrite <- string_app_cons, (prefix_app _ _ _ H). reflexivity.
    + rewrite (IH H). apply orb_true_r.
Qed.

(** Whether [s] is a prefix is settled by the first [length s]
    characters. *)
Lemma prefix_take (s : string) :
  forall n y z,
    String.length s <= n -> n <= String.length y ->
    prefix s (PyStr.take n y) = prefix s (y ++ z).
Proof.
  induction s as [|b s IH]; intros n y z Hs Hn.
  - now rewrite !prefix_nil.
  - destruct n as [|n]; [simpl in Hs; lia|].
    destruct y as [|c y]; [simpl in Hn; lia|].
    rewrite take_cons, string_app_cons.
    cbn [prefix]. destruct (ascii_dec b c); [|reflexivity].
    apply IH; simpl in *; lia.
Qed.

Lemma prefix_app_take (x : string) :
  forall s n y z,
    String.length s <= String.length x + n -> n <= String.length y ->
    prefix s (x ++ PyStr.take n y) = prefix s (x ++ y ++ z).
Proof.
  induction x as [|a x IH]; intros s n y z Hs Hn.
  - change (EmptyString ++ PyStr.take n y)%string with (PyStr.take n y).
    change (EmptyString ++ y ++ z)%string with (y ++ z)%string.
    apply prefix_take; simpl in *; lia.
  - destruct s as [|b s]; [now rewrite !prefix_nil|].
    rewrite !string_app_cons. cbn [prefix].
    destruct (ascii_dec b a); [|reflexivity].
    apply IH; simpl in *; lia.
Qed.

Lemma split_from_scan (sep cur : string) (c : ascii) (s : string) :
  PyStr.split_from 0 sep cur (String c s) =
  if prefix sep (String c s)
  then cur :: PyStr.split_from (String.length sep - 1) sep EmptyString s
  else PyStr.split_from 0 sep (cur ++ String c EmptyString) s.
Proof. reflexivity. Qed.

Lemma split_from_skip_app (sep cur rest : string) :
  forall u,
    PyStr.split_from (String.length u) sep cur (u ++ rest) =
    match rest with
    | EmptyString => [cur]
    | _ => PyStr.split_from 0 sep cur rest
    end.
Proof.
  induction u as [|a u IH].
  - destruct rest; reflexivity.
  - exact IH.
Qed.

Lemma split_from_nil (sep cur : string) :
  PyStr.split_from 0 sep cur EmptyString = [cur].
Proof. reflexivity. Qed.

(** A clean page followed by the separator is split off whole. *)
Lemma split_from_page (sep : string) :
  sep <> EmptyString ->
  forall p cur rest,
    splits_clean sep p = true ->
    PyStr.split_from 0 sep cur (p ++ sep ++ rest) =
    (cur ++ p)%string :: PyStr.split_from 0 sep EmptyString rest.
Proof.
  intros Hne. induction p as [|a p IH]; intros cur rest Hp.
  - destruct sep as [|c u]; [contradiction|].
    change (EmptyString ++ String c u ++ rest)%string with (String c (u ++ rest)).
    rewrite split_from_scan, <- string_app_cons, prefix_app_self, append_nil_r.
    change (String.length (String c u) - 1) with (String.length u - 0).
    rewrite Nat.sub_0_r, split_from_skip_app.
    destruct rest; reflexivity.
  - unfold splits_clean in Hp. apply negb_true_iff in Hp.
    rewrite string_app_cons, contains_cons in Hp.
    apply orb_false_iff in Hp as [Hpre Hrest].
    rewrite string_app_cons, split_from_scan, <- string_app_cons.
    rewrite <- (prefix_app_take (String a p) sep (String.length sep - 1) sep rest)
      by (simpl; lia).
    rewrite string_app_cons, Hpre.
    rewrite IH, append_snoc; [reflexivity|].
    unfold splits_clean. now rewrite Hrest.
Qed.

(** A text the separator does not occur in is one piece. *)
Lemma split_from_whole (sep : string) :
  forall p cur,
    PyStr.contains sep p = false ->
    PyStr.split_from 0 sep cur p = [(cur ++ p)%string].
Proof.
  induction p as [|a p IH]; intros cur H.
  - now rewrite append_nil_r.
  - rewrite contains_cons in H. apply orb_false_iff in H as [Hpre H].
    rewrite split_from_scan, Hpre, IH, append_snoc; auto.
Qed.

Lemma split_from_join (sep : string) :
  sep <> EmptyString ->
  forall pages p cur,
    Forall (fun q => splits_clean sep q = true) (p :: pages) ->
    PyStr.split_from 0 sep cur (PyStr.join sep (p :: pages)) =
    (cur ++ p)%string :: pages.
Proof.
  intros Hne. induction pages as [|q pages IH]; intros p cur Hall.
  - inversion Hall as [|? ? Hp _]; subst.
    apply split_from_whole.
    unfold splits_clean in Hp. apply negb_true_iff in Hp.
    apply not_true_is_false. intros Hc.
    apply (contains_app _ (PyStr.take (String.length sep - 1) sep)) in Hc.
    congruence.
  - inversion Hall as [|? ? Hp Hrest]; subst.
    change (PyStr.join sep (p :: q :: pages))
      with (p ++ sep ++ PyStr.join sep (q :: pages))%string.
    rewrite split_from_page by assumption.
    rewrite IH by assumption. reflexivity.
Qed.

(** What the client joins the orchestrator splits back: where there is a
    page and every page is clean of the separator, splitting the joined text
    gives the pages. *)
Theorem split_join_pages (pages : list string) :
  pages <> [] ->
  Forall (fun p => splits_clean page_separator p = true) pages ->
  PyStr.split page_separator (PyStr.join page_separator pages) = pages.
Proof.
  intros Hne Hall. destruct pages as [|p pages]; [contradiction|].
  unfold PyStr.split. rewrite split_from_join; [reflexivity|discriminate|exact Hall].
Qed.

(** So the orchestrator yields one fragment for every page of the OCR
    response, under the header with the page's number when there are
    several; and for a response of no page at all it yields one fragment
    with an empty text. *)
Theorem ocr_pages_one_fragment_each (file_path : string) (pages : list string) :
  Forall (fun p => splits_clean page_separator p = true) pages ->
  mistral_page_fragments file_path (PyStr.join page_separator pages) =
  match pages with
  | [] => [mkFragment MistralPage EmptyString]
  | _ =>
      map (fun '(i, page_md) =>
             mkFragment MistralPage
               (if (1 <? List.length pages)%nat
                then (("📄 **Mistral OCR Output** `[File " ++ basename file_path
                       ++ "]` (Page " ++ PyStr.str_of_nat (i + 1) ++ " of "
                       ++ PyStr.str_of_nat (List.length pages) ++ ")" ++ nl ++ nl)
                      ++ process_tags page_md
                      ++ nl ++ nl ++ "---" ++ nl ++ nl)%string
                else process_tags page_md))
          (enumerate pages)
  end.
Proof.
  intros Hall. destruct pages as [|p pages]; [reflexivity|].
  unfold mistral_page_fragments.
  rewrite split_join_pages; [reflexivity|discriminate|exact Hall].
Qed.

End SplitFacts.

(** ** One backend for a file *)

Section BackendChoice.

Context {World Handle : Type}.
Variable env : Env World Handle.
Variable cfg : Config.

Local Open Scope list_scope.

Lemma process_tags_empty (s : string) :
  process_tags s = EmptyString -> s = EmptyString.
Proof.
  intros H.
  assert (String.length s <= String.length (process_tags s)) as Hlen.
  { unfold process_tags.
    repeat (etransitivity;
            [|apply replace_length; [discriminate|simpl; lia]]).
    apply le_n. }
  rewrite H in Hlen. destruct s; [reflexivity|simpl in Hlen; lia].
Qed.

(** A text that splits into one piece is that piece. *)
Lemma split_from_single (sep : string) :
  forall s cur,
    List.length (PyStr.split_from 0 sep cur s) <= 1 ->
    PyStr.split_from 0 sep cur s = [(cur ++ s)%string].
Proof.
  induction s as [|c s IH]; intros cur H.
  - rewrite append_nil_r. reflexivity.
  - rewrite split_from_scan in *.
    destruct (prefix sep (String c s)).
    + pose proof (split_from_nonempty sep s (String.length sep - 1) EmptyString) as Hne.
      destruct (PyStr.split_from (String.length sep - 1) sep EmptyString s);
        [contradiction|simpl in H; lia].
    + rewrite (IH _ H), append_snoc. reflexivity.
Qed.

(** A page fragment of the hosted backend has an empty text only for the
    empty text. *)
Lemma mistral_page_empty_text (p markdown_output : string) (fr : Fragment) :
  In fr (mistral_page_fragments p markdown_output) ->
  text fr = EmptyString ->
  markdown_output = EmptyString.
Proof.
  unfold mistral_page_fragments, PyStr.split. intros Hin Htext.
  apply in_map_iff in Hin as ([i page_md] & <- & Hin). cbn [text] in Htext.
  destruct (1 <? List.length (PyStr.split_from 0 page_separator EmptyString
                                markdown_output))%nat eqn:Hn.
  - discriminate Htext.
  - apply Nat.ltb_ge in Hn. rewrite (split_from_single _ _ _ Hn) in Hin.
    destruct Hin as [Hin|[]]. inversion Hin; subst.
    apply process_tags_empty. exact Htext.
Qed.

(** A fragment of a chunk has an empty text only for an empty chunk that
    has no header before it. *)
Lemma chunk_empty_text (rid : string) (n : nat) (fr : Fragment) :
  forall cs page,
    In fr (vllm_chunk_fragments rid n page cs) ->
    text fr = EmptyString ->
    n <= 1 /\ In EmptyString cs.
Proof.
  induction cs as [|c cs IH]; intros page Hin Htext; [contradiction|].
  destruct Hin as [<-|Hin].
  - cbn [text] in Htext.
    destruct (1 <? n)%nat eqn:Hn; [discriminate Htext|].
    apply Nat.ltb_ge in Hn. split; [exact Hn|].
    left. apply process_tags_empty. exact Htext.
  - destruct (IH _ Hin Htext) as [Hn Hc]. split; [exact Hn|right; exact Hc].
Qed.


End BackendChoice.

(** ** The hosted OCR client *)

Section ClientFacts.

Context {World Handle : Type}.
Variable env : Env World Handle.

Local Open Scope list_scope.

(** Without the credential the constructor raises its [ValueError] and the
    SDK client is not built: the world is as it was. *)
Theorem client_init_without_key (w : World) :
  truthy (os_getenv env "MISTRAL_API_KEY" w) = false ->
  MistralOCRClient_init env w =
  mkRun [] w
    (inl (ValueError
       "MISTRAL_API_KEY environment variable not set (or not found in .env file).")).
Proof.
  intros H. unfold MistralOCRClient_init, bind, ask. simpl. rewrite H. reflexivity.
Qed.

(** With the credential the constructor hands it to the SDK and keeps it:
    it ends as building the SDK client ends. *)
Theorem client_init_with_key (w : World) (k : string) :
  os_getenv env "MISTRAL_API_KEY" w = Some k ->
  k <> EmptyString ->
  MistralOCRClient_init env w =
  mkRun [] (snd (Mistral env k w))
    match fst (Mistral env k w) with
    | inl e => inl e
    | inr h => inr (mkClient k h)
    end.
Proof.
  intros H Hk. unfold MistralOCRClient_init, bind, ask, oracle, ret. simpl.
  rewrite H. destruct k as [|c k]; [contradiction|]. simpl.
  destruct (Mistral env (String c k) w) as [[e|h] w1]; reflexivity.
Qed.

(** The orchestrator builds the client only where the credential is set, so
    the constructor's own check never fails there: an exception of the
    construction is one the SDK raised. *)
Theorem construction_failure_comes_from_sdk
    (cfg : Config) (f : File) (files : list File) (w : World) (e : Exception) :
  In (Some e)
     (client_constructions
        (trace (process_uploaded_files_to_markdown env cfg (Some (f :: files)) w))) ->
  exists k,
    os_getenv env "MISTRAL_API_KEY" w = Some k /\ k <> EmptyString /\
    fst (Mistral env k w) = inl e.
Proof.
  intros Hin.
  destruct (init_mistral_client_outcome env w) as [mc Hmc].
  destruct (orchestrator_run env cfg f files w mc Hmc) as [Ht _].
  cbv zeta in Ht. rewrite Ht in Hin. clear Ht.
  rewrite client_constructions_app in Hin.
  assert (client_constructions
            (concat (map trace
               (file_runs env cfg mc (f :: files)
                  (world (init_mistral_client env w))))) = []) as Hnone.
  { destruct mc as [c|].
    - apply (batch_with_client env cfg c).
    - apply (batch_without_client env cfg). }
  rewrite Hnone, app_nil_r in Hin. clear Hnone Hmc.
  rewrite init_mistral_client_run in Hin.
  destruct (os_getenv env "MISTRAL_API_KEY" w) as [[|c k]|] eqn:Hkey;
    [now simpl in Hin| |now simpl in Hin].
  exists (String c k). split; [reflexivity|]. split; [discriminate|].
  cbn [truthy] in Hin. cbv zeta in Hin.
  rewrite (client_init_with_key w (String c k) Hkey) in Hin by discriminate.
  cbn [outcome] in Hin.
  destruct (fst (Mistral env (String c k) w)) as [e'|h]; simpl in Hin.
  - destruct Hin as [Hin|[]]. congruence.
  - destruct Hin as [Hin|[]]. discriminate.
Qed.

Variable self : @MistralOCRClient Handle.

(** For a path that does not exist the call raises [FileNotFoundError]
    before anything is read or sent. *)
Theorem extract_missing_file (file_path : string) (w : World) :
  os_path_exists env file_path w = false ->
  extract_text_from_file env self file_path w =
  mkRun [] w (inl (FileNotFoundError ("File not found: " ++ file_path))).
Proof.
  intros H. unfold extract_text_from_file, bind, ask. simpl. rewrite H. reflexivity.
Qed.

(** An exception of reading the file goes to the caller as it is; the type
    of the file is not looked at and nothing is sent. *)
Theorem extract_read_failure
    (file_path : string) (w w1 : World) (e : Exception) :
  os_path_exists env file_path w = true ->
  read_file env file_path w = (inl e, w1) ->
  extract_text_from_file env self file_path w = mkRun [] w1 (inl e).
Proof.
  intros Hex Hrd.
  unfold extract_text_from_file, _encode_file_to_base64,
    bind, try_except, ask, oracle, raise, ret. simpl.
  rewrite Hex. simpl. rewrite Hrd. reflexivity.
Qed.

(** A PDF, by [mimetypes] or, where [mimetypes] knows nothing, by the
    extension in any case of letters: the file is sent as a ["document_url"]
    under the key of that name, as a data URL of its base64 encoding; the
    pages of the response come back joined by the page separator, and an
    exception of the request goes to the caller as it is. *)
Theorem extract_pdf (file_path data : string) (w w1 : World) :
  os_path_exists env file_path w = true ->
  read_file env file_path w = (inr data, w1) ->
  guess_type env file_path = Some "application/pdf" \/
  (truthy (guess_type env file_path) = false /\
   PyStr.lower (splitext_ext file_path) = ".pdf") ->
  extract_text_from_file env self file_path w =
  let r := ocr_process env (client self)
             (mkOCRRequest "mistral-ocr-latest" "document_url" "document_url"
                ("data:application/pdf;base64," ++ b64encode env data) false) w1 in
  mkRun [] (snd r)
    match fst r with
    | inl e => inl e
    | inr pages => inr (PyStr.join page_separator pages)
    end.
Proof.
  intros Hex Hrd Hmime.
  unfold extract_text_from_file, _encode_file_to_base64,
    bind, try_except, ask, oracle, raise, ret. simpl.
  rewrite Hex. simpl. rewrite Hrd. simpl.
  destruct Hmime as [Hg|[Hg Hext]].
  - rewrite Hg. simpl.
    destruct (ocr_process env (client self) _ w1) as [[e|pages] w2]; reflexivity.
  - rewrite Hg, Hext. simpl.
    destruct (ocr_process env (client self) _ w1) as [[e|pages] w2]; reflexivity.
Qed.

(** An image, by [mimetypes] or by one of the five extensions: the file is
    sent as an ["image_url"] under the key of that name, the data URL
    carrying the MIME type; for the extension [.jpg] that type is
    [image/jpg], the extension without its dot. *)
Theorem extract_image (file_path data mime_type : string) (w w1 : World) :
  os_path_exists env file_path w = true ->
  read_file env file_path w = (inr data, w1) ->
  (guess_type env file_path = Some mime_type /\ prefix "image/" mime_type = true) \/
  (truthy (guess_type env file_path) = false /\
   In (PyStr.lower (splitext_ext file_path))
      [".png"; ".jpg"; ".jpeg"; ".avif"; ".webp"] /\
   mime_type =
     ("image/" ++ PyStr.drop 1 (PyStr.lower (splitext_ext file_path)))%string) ->
  extract_text_from_file env self file_path w =
  let r := ocr_process env (client self)
             (mkOCRRequest "mistral-ocr-latest" "image_url" "image_url"
                ("data:" ++ mime_type ++ ";base64," ++ b64encode env data) false) w1 in
  mkRun [] (snd r)
    match fst r with
    | inl e => inl e
    | inr pages => inr (PyStr.join page_separator pages)
    end.
Proof.
  intros Hex Hrd Hmime.
  unfold extract_text_from_file, _encode_file_to_base64,
    bind, try_except, ask, oracle, raise, ret. simpl.
  rewrite Hex. simpl. rewrite Hrd. simpl.
  destruct Hmime as [[Hg Hpre]|(Hg & Hext & ->)].
  - rewrite Hg.
    destruct mime_type as [|c m]; [discriminate Hpre|].
    apply prefix_cons in Hpre as [<- Hpre]. simpl.
    destruct m as [|c m]; [discriminate Hpre|].
    apply prefix_cons in Hpre as [<- Hpre].
    destruct m as [|c m]; [discriminate Hpre|].
    apply prefix_cons in Hpre as [<- Hpre].
    destruct m as [|c m]; [discriminate Hpre|].
    apply prefix_cons in Hpre as [<- Hpre].
    destruct m as [|c m]; [discriminate Hpre|].
    apply prefix_cons in Hpre as [<- Hpre].
    destruct m as [|c m]; [discriminate Hpre|].
    apply prefix_cons in Hpre as [<- Hpre]. simpl.
    rewrite prefix_nil. simpl. rewrite append_assoc. simpl.
    destruct (ocr_process env (client self) _ w1) as [[e|pages] w2]; reflexivity.
  - rewrite Hg.
    simpl in Hext.
    destruct Hext as [<-|[<-|[<-|[<-|[<-|[]]]]]]; simpl;
      destruct (ocr_process env (client self) _ w1) as [[e|pages] w2]; reflexivity.
Qed.

(** A file of a type [mimetypes] knows and that is neither a PDF nor an
    image is read and then refused with a [ValueError]; nothing is sent. *)
Theorem extract_unsupported_type (file_path data mime_type : string) (w w1 : World) :
  os_path_exists env file_path w = true ->
  read_file env file_path w = (inr data, w1) ->
  guess_type env file_path = Some mime_type ->
  mime_type <> EmptyString ->
  mime_type <> "application/pdf" ->
  prefix "image/" mime_type = false ->
  extract_text_from_file env self file_path w =
  mkRun [] w1
    (inl (ValueError ("Unsupported MIME type: " ++ mime_type ++ " for file: "
                      ++ file_path))).
Proof.
  intros Hex Hrd Hg Hne Hpdf Himg.
  unfold extract_text_from_file, _encode_file_to_base64,
    bind, try_except, ask, oracle, raise, ret. simpl.
  assert (truthy (Some mime_type) = true) as Ht
      by (destruct mime_type; [contradiction|reflexivity]).
  rewrite Hex. simpl. rewrite Hrd. simpl. rewrite Hg, Ht. simpl.
  assert (String.eqb mime_type "application/pdf" = false) as ->
      by (apply String.eqb_neq; exact Hpdf).
  simpl. rewrite Himg. reflexivity.
Qed.

(** A file [mimetypes] knows nothing of and whose extension is none of the
    six is read and then refused with a [ValueError]; nothing is sent. *)
Theorem extract_undetermined_type (file_path data : string) (w w1 : World) :
  os_path_exists env file_path w = true ->
  read_file env file_path w = (inr data, w1) ->
  truthy (guess_type env file_path) = false ->
  ~ In (PyStr.lower (splitext_ext file_path))
       [".pdf"; ".png"; ".jpg"; ".jpeg"; ".avif"; ".webp"] ->
  extract_text_from_file env self file_path w =
  mkRun [] w1
    (inl (ValueError ("Could not determine MIME type for file: " ++ file_path))).
Proof.
  intros Hex Hrd Hg Hext.
  unfold extract_text_from_file, _encode_file_to_base64,
    bind, try_except, ask, oracle, raise, ret. simpl.
  rewrite Hex. simpl. rewrite Hrd. simpl. rewrite Hg.
  assert (forall x, x <> PyStr.lower (splitext_ext file_path) ->
                    String.eqb (PyStr.lower (splitext_ext file_path)) x = false) as Hneq.
  { intros x Hx. apply String.eqb_neq. congruence. }
  rewrite !Hneq by (intros Hx; apply Hext; rewrite <- Hx; simpl; auto 10).
  reflexivity.
Qed.

End ClientFacts.

(** ** The completion request *)

Section RequestFacts.

Context {World Handle : Type}.
Variable env : Env World Handle.
Context {V Response Json : Type}.
Variable completion : CompletionArgs V -> World -> (Exception + Response) * World.
Variable response_json : Response -> World -> (Exception + Json) * World.

Variable messages : list Message.
Variable model_name : string.
Variable max_tokens num_completions : Z.
Variable format : option (PyDict V).

Local Open Scope list_scope.

Ltac args_cases :=
  unfold completion_args_of, bind, ask, raise, ret; cbn [trace world outcome];
  destruct (String.eqb (getenv_default env "VLM_MODEL_URL" "" _) "") eqn:?Hurl;
  cbn [trace world outcome];
  [|destruct (prefix "hosted_vllm/" model_name) eqn:?Hhosted,
             (prefix "ollama/" model_name) eqn:?Hollama,
             (dict_truthy format) eqn:?Hformat,
             (prefix "openrouter" model_name) eqn:?Hrouter,
             (PyStr.contains "gpt" (PyStr.lower model_name)) eqn:?Hgpt,
             (any_mentions_json messages) as [?e|[|]] eqn:?Hjson;
    cbn [trace world outcome orb andb app]].

(** Building the arguments yields nothing and leaves the world as it is. *)
Lemma completion_args_quiet (w : World) :
  let r := completion_args_of env messages model_name max_tokens num_completions
             format w in
  trace r = [] /\ world r = w.
Proof. cbv zeta. args_cases; split; reflexivity. Qed.

(** Without the URL of the model, unset or empty, the request raises its
    [ValueError] and [completion] is not called. *)
Theorem sync_request_without_url (w : World) :
  getenv_default env "VLM_MODEL_URL" "" w = EmptyString ->
  sync_request env completion response_json messages model_name max_tokens
    num_completions format w =
  mkRun [] w
    (inl (ValueError
       "VLM_MODEL_URL is not set. Please set it to the URL of the VLM model.")).
Proof.
  intros H. unfold sync_request, completion_args_of, bind, ask, raise.
  cbn [trace world outcome]. rewrite H. reflexivity.
Qed.

(** The arguments that are always there: the four parameters as given, the
    temperature 0; the base URL and the API key go together, for the models
    served by hosted_vllm or ollama and no others, the key being ["EMPTY"]
    where the environment has none. *)
Theorem completion_args_api (w : World) (a : CompletionArgs V) :
  outcome (completion_args_of env messages model_name max_tokens num_completions
             format w) = inr a ->
  arg_model a = model_name
  /\ arg_messages a = messages
  /\ arg_max_tokens a = max_tokens
  /\ arg_n a = num_completions
  /\ arg_temperature a = 0%Z
  /\ getenv_default env "VLM_MODEL_URL" "" w <> EmptyString
  /\ (if (prefix "hosted_vllm/" model_name || prefix "ollama/" model_name)%bool
      then arg_api_base a = Some (getenv_default env "VLM_MODEL_URL" "" w)
           /\ arg_api_key a = Some (getenv_default env "API_KEY" "EMPTY" w)
      else arg_api_base a = None /\ arg_api_key a = None).
Proof.
  args_cases; intros H; try discriminate H;
    apply String.eqb_neq in Hurl;
    inversion H; subst; cbn; repeat split; auto.
Qed.

Lemma prefix_first_char (a b : ascii) (s t m : string) :
  prefix (String a s) m = true -> prefix (String b t) m = true -> a = b.
Proof.
  destruct m as [|c m]; [discriminate|].
  intros H1 H2. apply prefix_cons in H1 as [-> _].
  apply prefix_cons in H2 as [-> _]. reflexivity.
Qed.

Lemma prefix_ollama_openrouter (m : string) :
  prefix "openrouter" m = true -> prefix "ollama/" m = false.
Proof.
  destruct m as [|c m]; [discriminate|].
  intros H. apply prefix_cons in H as [<- H].
  destruct m as [|d m]; [discriminate H|].
  apply prefix_cons in H as [<- _]. reflexivity.
Qed.

(** The models a request is routed by: at most one of the three prefixes
    holds. *)
Ltac routes_apart :=
  try match goal with
      | H1 : prefix "hosted_vllm/" ?m = true, H2 : prefix "ollama/" ?m = true |- _ =>
          pose proof (prefix_first_char _ _ _ _ _ H1 H2) as Hx; discriminate Hx
      | H1 : prefix "hosted_vllm/" ?m = true, H2 : prefix "openrouter" ?m = true |- _ =>
          pose proof (prefix_first_char _ _ _ _ _ H1 H2) as Hx; discriminate Hx
      | H1 : prefix "openrouter" ?m = true, H2 : prefix "ollama/" ?m = true |- _ =>
          rewrite (prefix_ollama_openrouter _ H1) in H2; discriminate H2
      end.

(** Where the schema goes.  Under ["format"] for an ollama model only, and
    then as it was given; never under both ["format"] and
    ["response_format"].  For an openrouter model it goes under
    ["response_format"] as it came, [None] included.  Whatever stands under
    ["response_format"] is either that, or the JSON-object dict put there
    for a gpt model one of whose messages mentions json.  For a hosted_vllm
    model that is no gpt model the schema is not passed on at all. *)
Theorem completion_args_formats (w : World) (a : CompletionArgs V) :
  outcome (completion_args_of env messages model_name max_tokens num_completions
             format w) = inr a ->
  (arg_format a = None \/ arg_response_format a = None)
  /\ (arg_format a <> None ->
      prefix "ollama/" model_name = true /\ dict_truthy format = true /\
      arg_format a = format)
  /\ (prefix "openrouter" model_name = true ->
      arg_format a = None /\ arg_response_format a = Some format)
  /\ (forall r,
        arg_response_format a = Some r ->
        (prefix "openrouter" model_name = true /\ r = format) \/
        (PyStr.contains "gpt" (PyStr.lower model_name) = true /\
         any_mentions_json messages = inr true /\ r = Some json_object))
  /\ (prefix "hosted_vllm/" model_name = true ->
      PyStr.contains "gpt" (PyStr.lower model_name) = false ->
      arg_format a = None /\ arg_response_format a = None).
Proof.
  intros H.
  assert (forall f, dict_truthy format = true ->
                    Some match format with Some f => f | None => f end = format)
    as Hfmt.
  { intros f Ht. destruct format as [[|x l]|]; try discriminate Ht. reflexivity. }
  revert H.
  args_cases; intros H; try discriminate H; inversion H; subst; clear H;
    routes_apart; cbn;
    (split; [auto|]);
    (split; [intros Hn; first [contradiction | repeat split; auto]|]);
    (split; [intros Hr; first [discriminate Hr | split; reflexivity]|]);
    (split; [intros r Hr; first [discriminate Hr
                                | inversion Hr; subst; left; split; reflexivity
                                | inversion Hr; subst; right; repeat split; reflexivity]|]);
    intros Hh Hg; first [discriminate | split; reflexivity].
Qed.

Lemma any_mentions_json_raises (e : Exception) :
  forall msgs,
    any_mentions_json msgs = inl e ->
    exists v, In (Dict (Some v)) msgs /\ forall s, v <> Str s.
Proof.
  induction msgs as [|m msgs IH]; intros H; [discriminate H|].
  destruct m as [[[s|b|ty]|]|]; simpl in H.
  - destruct (PyStr.contains "json" (PyStr.lower s)); [discriminate H|].
    destruct (IH H) as (v & Hin & Hv). exists v. split; [right; exact Hin|exact Hv].
  - exists (Bytes b). split; [left; reflexivity|discriminate].
  - exists (NotStr ty). split; [left; reflexivity|discriminate].
  - destruct (IH H) as (v & Hin & Hv). exists v. split; [right; exact Hin|exact Hv].
  - destruct (IH H) as (v & Hin & Hv). exists v. split; [right; exact Hin|exact Hv].
Qed.

(** Building the arguments fails for a missing URL of the model, and
    otherwise only where the messages are gone through, which is for a gpt
    model that is routed neither as an ollama model with a schema nor as an
    openrouter model, and the going through raises.  So for every other
    model nothing in the messages makes it fail, and for no model do
    messages whose texts are strings. *)
Theorem completion_args_failures (w : World) (e : Exception) :
  outcome (completion_args_of env messages model_name max_tokens num_completions
             format w) = inl e ->
  ((getenv_default env "VLM_MODEL_URL" "" w = EmptyString /\
    e = ValueError
          "VLM_MODEL_URL is not set. Please set it to the URL of the VLM model.")
   \/ (PyStr.contains "gpt" (PyStr.lower model_name) = true /\
       prefix "openrouter" model_name = false /\
       (prefix "ollama/" model_name && dict_truthy format)%bool = false /\
       any_mentions_json messages = inl e))
  /\ ((forall v, In (Dict (Some v)) messages -> exists s, v = Str s) ->
      getenv_default env "VLM_MODEL_URL" "" w = EmptyString).
Proof.
  intros H.
  assert ((getenv_default env "VLM_MODEL_URL" "" w = EmptyString /\
           e = ValueError
                 "VLM_MODEL_URL is not set. Please set it to the URL of the VLM model.")
          \/ (PyStr.contains "gpt" (PyStr.lower model_name) = true /\
              prefix "openrouter" model_name = false /\
              (prefix "ollama/" model_name && dict_truthy format)%bool = false /\
              any_mentions_json messages = inl e)) as Hcases.
  { revert H.
    args_cases; intros H; try discriminate H; inversion H; subst;
      first [ left; apply String.eqb_eq in Hurl; split; [exact Hurl|reflexivity]
            | right; repeat split; reflexivity ]. }
  split; [exact Hcases|].
  intros Hstr. destruct Hcases as [[Hu _]|(_ & _ & _ & Hj)]; [exact Hu|].
  apply any_mentions_json_raises in Hj as (v & Hin & Hv).
  destruct (Hstr v Hin) as [s Hs]. destruct (Hv s Hs).
Qed.

(** With the arguments built, [completion] is called once, with them and in
    the world as it was; what it raises, and what [json()] raises, goes to
    the caller. *)
Theorem sync_request_calls_completion (w : World) (a : CompletionArgs V) :
  outcome (completion_args_of env messages model_name max_tokens num_completions
             format w) = inr a ->
  sync_request env completion response_json messages model_name max_tokens
    num_completions format w =
  match fst (completion a w) with
  | inl e => mkRun [] (snd (completion a w)) (inl e)
  | inr response =>
      mkRun [] (snd (response_json response (snd (completion a w))))
            (fst (response_json response (snd (completion a w))))
  end.
Proof.
  intros H. unfold sync_request.
  destruct (completion_args_quiet w) as [Ht Hw]. cbv zeta in Ht, Hw.
  rewrite (bind_run _ _ w a H), Ht, Hw. cbn [trace world outcome app].
  unfold bind, oracle.
  destruct (completion a w) as [[e|response] w1]; cbn; [reflexivity|].
  destruct (response_json response w1) as [j w2]. reflexivity.
Qed.

End RequestFacts.

(** ** The upload handler *)

Section UploadFacts.

Context {World Handle : Type}.
Variable env : Env World Handle.
Variable default_max_img_size : Z.

Local Open Scope list_scope.

(** The handler calls the rasterizer at most once, for a batch that is not
    empty, on all the paths of the batch together.  Where it returns, the
    image paths are the value of the gallery, and the gallery and the button
    are shown exactly when there are files; an exception of the rasterizer is
    not caught. *)
Theorem handle_file_upload_shape (files : option (list File)) (w : World) :
  let r := handle_file_upload env default_max_img_size files w in
  let paths := match files with Some l => map name l | None => [] end in
  let raster := convert_files_to_images env paths default_max_img_size w in
  raster_calls (trace r) =
    match paths with
    | [] => []
    | _ :: _ => [(paths, fst raster)]
    end
  /\ fragments (trace r) = []
  /\ match outcome r with
     | inr (image_paths, gallery, button) =>
         value gallery = image_paths
         /\ value button = None
         /\ visible gallery = visible button
         /\ visible button = negb (match paths with [] => true | _ => false end)
         /\ image_paths =
              match paths with
              | [] => None
              | _ :: _ =>
                  match fst raster with inr imgs => Some imgs | inl _ => None end
              end
     | inl e => paths <> [] /\ fst raster = inl e
     end.
Proof.
  cbv zeta. destruct files as [[|f files]|]; try (repeat split; reflexivity).
  unfold handle_file_upload, bind, observed, oracle, ret.
  cbn [map].
  destruct (convert_files_to_images env (name f :: map name files)
              default_max_img_size w) as [[e|imgs] w1];
    cbn; repeat split; try reflexivity; discriminate.
Qed.

End UploadFacts.

(** ** The pipeline on the scripted worlds *)

Section OnScenarios.

Import Scenario.

Local Open Scope list_scope.

(** A batch with a file the rasterizer gives no page images for: two
    file-complete fragments for three files. *)
Lemma C1_counterexample :
  let files := [report; corrupt; photo] in
  let t := trace (process_uploaded_files_to_markdown vllm_only cfg (Some files) 0) in
  map text (fragments_at FileComplete t) =
    [ ("✅ Finished processing report.pdf." ++ nl ++ nl ++ "*****" ++ nl ++ nl)%string;
      ("✅ Finished processing photo.jpg." ++ nl ++ nl ++ "*****" ++ nl ++ nl)%string ]
  /\ List.length (fragments_at FileComplete t) <> List.length files.
Proof.
  cbv zeta. split.
  - vm_compute. reflexivity.
  - intros H. vm_compute in H. discriminate H.
Qed.





(** The hosted backend fails for the file the rasterizer gives no page
    images for: the fallback is entered and the driver is not invoked. *)
Lemma C5_counterexample :
  let r := process_file mistral_down cfg (Some sdk_client) corrupt 0 in
  extract_calls (trace r) =
    [(name corrupt, inl (mkException "SDKError" "API error occurred: Status 401"))]
  /\ raster_calls (trace r) = [([name corrupt], inr [])]
  /\ driver_calls (trace r) = []
  /\ stream_calls (trace r) = [].
Proof. cbv zeta. repeat split; vm_compute; reflexivity. Qed.

Lemma C5_witness :
  let r := process_file mistral_down cfg (Some sdk_client) report 0 in
  let e := mkException "SDKError" "API error occurred: Status 401" in
  let sep := (nl ++ nl ++ "---" ++ nl ++ nl)%string in
  In (Call_extract_text_from_file (name report) (inl e)) (trace r)
  /\ (exists res tail,
        trace r =
          [ Yield (mkFragment MistralAttempt
                     ("⏳ Attempting Mistral OCR for report.pdf..." ++ sep)%string);
            Call_extract_text_from_file (name report) (inl e);
            Yield (mkFragment MistralError
                     ("⚠️ **Mistral OCR Error for report.pdf**: "
                      ++ "API error occurred: Status 401"
                      ++ ". Falling back to VLLM." ++ sep)%string);
            Yield (mkFragment VllmNotice
                     ("⏳ Using default VLLM model for report.pdf "
                      ++ "(converting to images first)..." ++ sep)%string);
            Call_convert_files_to_images [name report] (max_img_size cfg) res ]
          ++ tail)
  /\ outcome r = inr tt
  /\ outcome (for_each [report; photo] (process_file mistral_down cfg (Some sdk_client)) 0)
     = inr tt.
Proof.
  cbv zeta.
  assert (In (Call_extract_text_from_file (name report)
                (inl (mkException "SDKError" "API error occurred: Status 401")))
             (trace (process_file mistral_down cfg (Some sdk_client) report 0))) as H
    by (vm_compute; right; left; reflexivity).
  split; [exact H|].
  destruct (C5_backend_a_failure_falls_back
              mistral_down cfg (Some sdk_client) report [photo] 0 _ _ H)
    as ((res & tail & Ht & _) & H1 & _ & H2).
  split; [exists res, tail; exact Ht|].
  split; assumption.
Defined.

(** The client cannot be built and the rasterizer gives no page images for
    the second file: the driver is invoked for the first file only. *)
Lemma C6_counterexample :
  let files := [report; corrupt] in
  let t := trace (process_uploaded_files_to_markdown sdk_broken cfg (Some files) 0) in
  client_constructions t =
    [Some (mkException "RuntimeError" "cannot reach api.mistral.ai")]
  /\ map fst (raster_calls t) = [[name report]; [name corrupt]]
  /\ driver_calls t = [report_pages]
  /\ List.length (driver_calls t) <> List.length files.
Proof.
  cbv zeta. repeat split; try (vm_compute; reflexivity).
  intros H. vm_compute in H. discriminate H.
Qed.

Lemma C6_witness :
  let e := mkException "RuntimeError" "cannot reach api.mistral.ai" in
  let t := trace (process_uploaded_files_to_markdown sdk_broken cfg
                    (Some [report; photo]) 0) in
  truthy (os_getenv sdk_broken "MISTRAL_API_KEY" 0) = true
  /\ outcome (MistralOCRClient_init sdk_broken 0) = inl e
  /\ fragments_at ClientInitWarning t =
       [mkFragment ClientInitWarning
          ("⚠️ **Warning**: Could not initialize Mistral OCR client: "
           ++ "cannot reach api.mistral.ai. Falling back to default processing."
           ++ nl ++ nl ++ "---" ++ nl ++ nl)%string]
  /\ client_constructions t = [Some e]
  /\ extract_calls t = []
  /\ fragments_at MistralAttempt t = [].
Proof.
  cbv zeta.
  assert (truthy (os_getenv sdk_broken "MISTRAL_API_KEY" 0) = true) as Hk
    by reflexivity.
  assert (outcome (MistralOCRClient_init sdk_broken 0) =
          inl (mkException "RuntimeError" "cannot reach api.mistral.ai")) as Hi
    by reflexivity.
  split; [exact Hk|]. split; [exact Hi|].
  destruct (C6_client_construction_failure sdk_broken cfg report [photo] 0 _ Hk Hi)
    as (H1 & H2 & H3 & H4 & _).
  repeat split; assumption.
Defined.




Lemma C9_witness :
  let t := trace (process_file stream_breaks cfg None report 0) in
  let e := mkException "ValueError" "cannot parse <img> tag" in
  In (report_pages, (["First page"], Some e)) (stream_calls t)
  /\ map text (fragments_at VllmChunk t) =
       [ ("📄 **VLLM Conversion Progress** `[Request 00000000-vllm-00000001]` "
          ++ "(Processing page 1 of 3)" ++ nl ++ nl ++ "First page")%string ]
  /\ exists request_id,
       fragments_at VllmStreamError t =
         [mkFragment VllmStreamError
            ("❌ **Error in VLLM processing (Request " ++ request_id
             ++ ")**: cannot parse <img> tag")%string].
Proof.
  cbv zeta.
  assert (In (report_pages,
              (["First page"], Some (mkException "ValueError" "cannot parse <img> tag")))
             (stream_calls (trace (process_file stream_breaks cfg None report 0)))) as H
    by (vm_compute; left; reflexivity).
  split; [exact H|].
  destruct (C9_chunks_sanitized_error_raw stream_breaks cfg None report 0 _ _ _ H)
    as (rid & _ & Herr).
  split; [vm_compute; reflexivity|].
  exists rid. exact Herr.
Defined.

(** The fragment the driver yields when the conversion routine raises holds
    a raw token, and is the sanitizer's output for no text. *)
Lemma C9_counterexample :
  let t := trace (process_uploaded_files_to_markdown stream_breaks cfg
                    (Some [photo]) 0) in
  exists fr,
    In fr (fragments t)
    /\ fr = mkFragment VllmStreamError
              ("❌ **Error in VLLM processing (Request 00000000-vllm-00000001)**: "
               ++ "cannot parse <img> tag")%string
    /\ PyStr.contains "<img>" (text fr) = true
    /\ forall raw, text fr <> process_tags raw.
Proof.
  cbv zeta.
  exists (mkFragment VllmStreamError
            ("❌ **Error in VLLM processing (Request 00000000-vllm-00000001)**: "
             ++ "cannot parse <img> tag")%string).
  split; [vm_compute; right; right; left; reflexivity|].
  split; [reflexivity|].
  assert (PyStr.contains "<img>"
            ("❌ **Error in VLLM processing (Request 00000000-vllm-00000001)**: "
             ++ "cannot parse <img> tag")%string = true) as Hraw
    by (vm_compute; reflexivity).
  split; [exact Hraw|].
  intros raw Heq. cbn [text] in Heq.
  pose proof (process_tags_clean raw) as Hclean.
  unfold raw_tokens in Hclean. inversion Hclean as [|? ? Himg _]; subst.
  rewrite <- Heq, Hraw in Himg. discriminate Himg.
Qed.

(** *** The further facts *)



Lemma rasterizer_failure_completes_file_witness :
  let r := process_file raster_breaks cfg None report 0 in
  let e := mkException "RuntimeError" "poppler is not installed" in
  In (Call_convert_files_to_images [name report] (max_img_size cfg) (inl e)) (trace r)
  /\ fragments_at VllmFallbackError (trace r) =
       [mkFragment VllmFallbackError
          ("❌ **Error in VLLM fallback for report.pdf**: poppler is not installed"
           ++ nl ++ nl ++ "---" ++ nl ++ nl)%string]
  /\ driver_calls (trace r) = []
  /\ fragments_at FileComplete (trace r) =
       [mkFragment FileComplete
          ("✅ Finished processing report.pdf." ++ nl ++ nl ++ "*****" ++ nl ++ nl)%string].
Proof.
  cbv zeta.
  assert (In (Call_convert_files_to_images [name report] (max_img_size cfg)
                (inl (mkException "RuntimeError" "poppler is not installed")))
             (trace (process_file raster_breaks cfg None report 0))) as H
    by (vm_compute; right; left; reflexivity).
  split; [exact H|].
  destruct (rasterizer_failure_completes_file raster_breaks cfg None report 0 _ _ _ H)
    as (H1 & H2 & _ & H4 & _).
  repeat split; assumption.
Defined.

Lemma process_tags_without_angle_witness :
  PyStr.contains "<" "Total: 3 > 2 &amp; done" = false
  /\ process_tags "Total: 3 > 2 &amp; done" = "Total: 3 > 2 &amp; done".
Proof.
  assert (PyStr.contains "<" "Total: 3 > 2 &amp; done" = false) as H by reflexivity.
  split; [exact H|]. exact (process_tags_without_angle _ H).
Defined.

Lemma split_join_pages_witness :
  ["Page1"; "Page2"]%string <> []
  /\ Forall (fun p => splits_clean page_separator p = true) ["Page1"; "Page2"]%string
  /\ PyStr.split page_separator (PyStr.join page_separator ["Page1"; "Page2"]%string)
     = ["Page1"; "Page2"]%string.
Proof.
  assert (["Page1"; "Page2"]%string <> []) as H1 by discriminate.
  assert (Forall (fun p => splits_clean page_separator p = true)
                 ["Page1"; "Page2"]%string) as H2
    by (repeat constructor).
  split; [exact H1|]. split; [exact H2|].
  exact (split_join_pages _ H1 H2).
Defined.

Lemma ocr_pages_one_fragment_each_witness :
  Forall (fun p => splits_clean page_separator p = true) ["Page1"; "Page2"]%string
  /\ map text (mistral_page_fragments (name report)
                 (PyStr.join page_separator ["Page1"; "Page2"]%string)) =
     [ ("📄 **Mistral OCR Output** `[File report.pdf]` (Page 1 of 2)" ++ nl ++ nl
        ++ "Page1" ++ nl ++ nl ++ "---" ++ nl ++ nl)%string;
       ("📄 **Mistral OCR Output** `[File report.pdf]` (Page 2 of 2)" ++ nl ++ nl
        ++ "Page2" ++ nl ++ nl ++ "---" ++ nl ++ nl)%string ].
Proof.
  assert (Forall (fun p => splits_clean page_separator p = true)
                 ["Page1"; "Page2"]%string) as H
    by (repeat constructor).
  split; [exact H|].
  rewrite (ocr_pages_one_fragment_each (name report) _ H).
  vm_compute. reflexivity.
Defined.

Lemma client_init_without_key_witness :
  truthy (os_getenv vllm_only "MISTRAL_API_KEY" 0) = false
  /\ MistralOCRClient_init vllm_only 0 =
     mkRun [] 0
       (inl (ValueError
          "MISTRAL_API_KEY environment variable not set (or not found in .env file).")).
Proof.
  assert (truthy (os_getenv vllm_only "MISTRAL_API_KEY" 0) = false) as H
    by reflexivity.
  split; [exact H|]. exact (client_init_without_key vllm_only 0 H).
Defined.

Lemma client_init_with_key_witness :
  os_getenv mistral_ok "MISTRAL_API_KEY" 0 = Some "secret"%string
  /\ "secret"%string <> EmptyString
  /\ MistralOCRClient_init mistral_ok 0 = mkRun [] 0 (inr sdk_client).
Proof.
  assert (os_getenv mistral_ok "MISTRAL_API_KEY" 0 = Some "secret"%string) as H
    by reflexivity.
  assert ("secret"%string <> EmptyString) as Hne by discriminate.
  split; [exact H|]. split; [exact Hne|].
  exact (client_init_with_key mistral_ok 0 "secret" H Hne).
Defined.

Lemma construction_failure_comes_from_sdk_witness :
  let e := mkException "RuntimeError" "cannot reach api.mistral.ai" in
  In (Some e)
     (client_constructions
        (trace (process_uploaded_files_to_markdown sdk_broken cfg
                  (Some [report; photo]) 0)))
  /\ exists k,
       os_getenv sdk_broken "MISTRAL_API_KEY" 0 = Some k /\ k <> EmptyString /\
       fst (Mistral sdk_broken k 0) = inl e.
Proof.
  cbv zeta.
  assert (In (Some (mkException "RuntimeError" "cannot reach api.mistral.ai"))
             (client_constructions
                (trace (process_uploaded_files_to_markdown sdk_broken cfg
                          (Some [report; photo]) 0)))) as H
    by (vm_compute; left; reflexivity).
  split; [exact H|].
  exact (construction_failure_comes_from_sdk sdk_broken cfg report [photo] 0 _ H).
Defined.

Lemma extract_missing_file_witness :
  os_path_exists empty_disk (name report) 0 = false
  /\ extract_text_from_file empty_disk sdk_client (name report) 0 =
     mkRun [] 0 (inl (FileNotFoundError "File not found: /tmp/gradio/report.pdf")).
Proof.
  assert (os_path_exists empty_disk (name report) 0 = false) as H by reflexivity.
  split; [exact H|].
  exact (extract_missing_file empty_disk sdk_client (name report) 0 H).
Defined.

Lemma extract_read_failure_witness :
  let e := mkException "PermissionError" "[Errno 13] Permission denied" in
  os_path_exists locked_disk (name report) 0 = true
  /\ read_file locked_disk (name report) 0 = (inl e, 0)
  /\ extract_text_from_file locked_disk sdk_client (name report) 0 =
     mkRun [] 0 (inl e).
Proof.
  cbv zeta.
  assert (os_path_exists locked_disk (name report) 0 = true) as H1 by reflexivity.
  assert (read_file locked_disk (name report) 0 =
          (inl (mkException "PermissionError" "[Errno 13] Permission denied"), 0))
    as H2 by reflexivity.
  split; [exact H1|]. split; [exact H2|].
  exact (extract_read_failure locked_disk sdk_client (name report) 0 0 _ H1 H2).
Defined.

(** The extension of [SCAN.PDF] is taken in lower case. *)
Lemma extract_pdf_witness :
  os_path_exists mistral_ok (name scan) 0 = true
  /\ read_file mistral_ok (name scan) 0 = (inr (name scan), 0)
  /\ (guess_type mistral_ok (name scan) = Some "application/pdf"%string \/
      (truthy (guess_type mistral_ok (name scan)) = false /\
       PyStr.lower (splitext_ext (name scan)) = ".pdf"%string))
  /\ extract_text_from_file mistral_ok sdk_client (name scan) 0 =
     mkRun [] 0 (inr ("Page1" ++ page_separator ++ "Page2")%string).
Proof.
  assert (os_path_exists mistral_ok (name scan) 0 = true) as H1 by reflexivity.
  assert (read_file mistral_ok (name scan) 0 = (inr (name scan), 0)) as H2
    by reflexivity.
  assert (guess_type mistral_ok (name scan) = Some "application/pdf"%string \/
          (truthy (guess_type mistral_ok (name scan)) = false /\
           PyStr.lower (splitext_ext (name scan)) = ".pdf"%string)) as H3
    by (right; split; reflexivity).
  split; [exact H1|]. split; [exact H2|]. split; [exact H3|].
  exact (extract_pdf mistral_ok sdk_client (name scan) (name scan) 0 0 H1 H2 H3).
Defined.

Lemma extract_image_witness :
  os_path_exists mistral_ok (name photo) 0 = true
  /\ read_file mistral_ok (name photo) 0 = (inr (name photo), 0)
  /\ (truthy (guess_type mistral_ok (name photo)) = false /\
      In (PyStr.lower (splitext_ext (name photo)))
         [".png"; ".jpg"; ".jpeg"; ".avif"; ".webp"]%string /\
      "image/jpg"%string =
        ("image/" ++ PyStr.drop 1 (PyStr.lower (splitext_ext (name photo))))%string)
  /\ extract_text_from_file mistral_ok sdk_client (name photo) 0 =
     mkRun [] 0 (inr ("Page1" ++ page_separator ++ "Page2")%string).
Proof.
  assert (os_path_exists mistral_ok (name photo) 0 = true) as H1 by reflexivity.
  assert (read_file mistral_ok (name photo) 0 = (inr (name photo), 0)) as H2
    by reflexivity.
  assert (truthy (guess_type mistral_ok (name photo)) = false /\
          In (PyStr.lower (splitext_ext (name photo)))
             [".png"; ".jpg"; ".jpeg"; ".avif"; ".webp"]%string /\
          "image/jpg"%string =
            ("image/" ++ PyStr.drop 1 (PyStr.lower (splitext_ext (name photo))))%string)
    as H3 by (split; [reflexivity|split; [right; left; reflexivity|reflexivity]]).
  split; [exact H1|]. split; [exact H2|]. split; [exact H3|].
  exact (extract_image mistral_ok sdk_client (name photo) (name photo) "image/jpg"
           0 0 H1 H2 (or_intror H3)).
Defined.

Lemma extract_unsupported_type_witness :
  os_path_exists text_disk (name notes) 0 = true
  /\ read_file text_disk (name notes) 0 = (inr (name notes), 0)
  /\ guess_type text_disk (name notes) = Some "text/plain"%string
  /\ extract_text_from_file text_disk sdk_client (name notes) 0 =
     mkRun [] 0
       (inl (ValueError
          "Unsupported MIME type: text/plain for file: /tmp/gradio/notes.txt")).
Proof.
  assert (os_path_exists text_disk (name notes) 0 = true) as H1 by reflexivity.
  assert (read_file text_disk (name notes) 0 = (inr (name notes), 0)) as H2
    by reflexivity.
  assert (guess_type text_disk (name notes) = Some "text/plain"%string) as H3
    by reflexivity.
  split; [exact H1|]. split; [exact H2|]. split; [exact H3|].
  refine (extract_unsupported_type text_disk sdk_client (name notes) (name notes)
            "text/plain" 0 0 H1 H2 H3 _ _ _);
    [discriminate|discriminate|reflexivity].
Defined.

Lemma extract_undetermined_type_witness :
  os_path_exists mistral_ok (name notes) 0 = true
  /\ read_file mistral_ok (name notes) 0 = (inr (name notes), 0)
  /\ truthy (guess_type mistral_ok (name notes)) = false
  /\ extract_text_from_file mistral_ok sdk_client (name notes) 0 =
     mkRun [] 0
       (inl (ValueError
          "Could not determine MIME type for file: /tmp/gradio/notes.txt")).
Proof.
  assert (os_path_exists mistral_ok (name notes) 0 = true) as H1 by reflexivity.
  assert (read_file mistral_ok (name notes) 0 = (inr (name notes), 0)) as H2
    by reflexivity.
  assert (truthy (guess_type mistral_ok (name notes)) = false) as H3 by reflexivity.
  split; [exact H1|]. split; [exact H2|]. split; [exact H3|].
  refine (extract_undetermined_type mistral_ok sdk_client (name notes) (name notes)
            0 0 H1 H2 H3 _).
  vm_compute. intros H.
  repeat (destruct H as [H|H]; [discriminate H|]). exact H.
Defined.

Lemma sync_request_without_url_witness :
  getenv_default vllm_only "VLM_MODEL_URL" "" 0 = EmptyString
  /\ sync_request vllm_only echo echo_json [] default_model_name default_max_tokens
       default_num_completions None 0 =
     mkRun [] 0
       (inl (ValueError
          "VLM_MODEL_URL is not set. Please set it to the URL of the VLM model.")).
Proof.
  assert (getenv_default vllm_only "VLM_MODEL_URL" "" 0 = EmptyString) as H
    by reflexivity.
  split; [exact H|].
  exact (sync_request_without_url vllm_only echo echo_json [] default_model_name
           default_max_tokens default_num_completions None 0 H).
Defined.

Lemma completion_args_api_witness :
  let a := mkCompletionArgs default_model_name [] default_max_tokens
             default_num_completions 0 (Some "http://localhost:8000/v1"%string)
             (Some "EMPTY"%string) (@None (PyDict unit)) None in
  outcome (completion_args_of served [] default_model_name default_max_tokens
             default_num_completions None 0) = inr a
  /\ arg_temperature a = 0%Z
  /\ getenv_default served "VLM_MODEL_URL" "" 0 <> EmptyString.
Proof.
  cbv zeta.
  assert (outcome (completion_args_of served [] default_model_name default_max_tokens
                     default_num_completions None 0) =
          inr (mkCompletionArgs default_model_name [] default_max_tokens
                 default_num_completions 0 (Some "http://localhost:8000/v1"%string)
                 (Some "EMPTY"%string) (@None (PyDict unit)) None)) as H
    by reflexivity.
  split; [exact H|].
  destruct (completion_args_api served [] default_model_name default_max_tokens
              default_num_completions None 0 _ H) as (_ & _ & _ & _ & H5 & H6 & _).
  split; assumption.
Defined.

Lemma completion_args_formats_witness :
  let model_name := "openrouter/qwen/qwen2.5-vl-72b-instruct"%string in
  let a := mkCompletionArgs model_name [] default_max_tokens
             default_num_completions 0 None None None
             (Some (Some (@json_object unit))) in
  outcome (completion_args_of served [] model_name default_max_tokens
             default_num_completions (Some (@json_object unit)) 0) = inr a
  /\ (arg_format a = None \/ arg_response_format a = None)
  /\ (prefix "openrouter" model_name = true ->
      arg_format a = None /\ arg_response_format a = Some (Some json_object)).
Proof.
  cbv zeta.
  assert (outcome (completion_args_of served []
                     "openrouter/qwen/qwen2.5-vl-72b-instruct" default_max_tokens
                     default_num_completions (Some (@json_object unit)) 0) =
          inr (mkCompletionArgs "openrouter/qwen/qwen2.5-vl-72b-instruct" []
                 default_max_tokens default_num_completions 0 None None None
                 (Some (Some (@json_object unit))))) as H
    by reflexivity.
  split; [exact H|].
  destruct (completion_args_formats served [] "openrouter/qwen/qwen2.5-vl-72b-instruct"
              default_max_tokens default_num_completions
              (Some (@json_object unit)) 0 _ H) as (H1 & _ & H3 & _).
  split; assumption.
Defined.

Lemma completion_args_failures_witness :
  let e := AttributeError "'int' object has no attribute 'lower'" in
  let messages := [Dict (Some (Str "Describe the page")); Dict (Some (NotStr "int"))] in
  outcome (completion_args_of served messages "openai/gpt-4o" default_max_tokens
             default_num_completions (@None (PyDict unit)) 0) = inl e
  /\ ((getenv_default served "VLM_MODEL_URL" "" 0 = EmptyString /\
       e = ValueError
             "VLM_MODEL_URL is not set. Please set it to the URL of the VLM model.")
      \/ (PyStr.contains "gpt" (PyStr.lower "openai/gpt-4o") = true /\
          prefix "openrouter" "openai/gpt-4o" = false /\
          (prefix "ollama/" "openai/gpt-4o" && dict_truthy (@None (PyDict unit)))%bool
          = false /\
          any_mentions_json messages = inl e)).
Proof.
  cbv zeta.
  assert (outcome (completion_args_of served
                     [Dict (Some (Str "Describe the page")); Dict (Some (NotStr "int"))]
                     "openai/gpt-4o" default_max_tokens default_num_completions
                     (@None (PyDict unit)) 0) =
          inl (AttributeError "'int' object has no attribute 'lower'")) as H
    by reflexivity.
  split; [exact H|].
  exact (proj1 (completion_args_failures served _ "openai/gpt-4o" default_max_tokens
                  default_num_completions None 0 _ H)).
Defined.

Lemma sync_request_calls_completion_witness :
  let a := mkCompletionArgs default_model_name [] default_max_tokens
             default_num_completions 0 (Some "http://localhost:8000/v1"%string)
             (Some "EMPTY"%string) (@None (PyDict unit)) None in
  outcome (completion_args_of served [] default_model_name default_max_tokens
             default_num_completions None 0) = inr a
  /\ sync_request served echo echo_json [] default_model_name default_max_tokens
       default_num_completions None 0 = mkRun [] 1 (inr a).
Proof.
  cbv zeta.
  assert (outcome (completion_args_of served [] default_model_name default_max_tokens
                     default_num_completions None 0) =
          inr (mkCompletionArgs default_model_name [] default_max_tokens
                 default_num_completions 0 (Some "http://localhost:8000/v1"%string)
                 (Some "EMPTY"%string) (@None (PyDict unit)) None)) as H
    by reflexivity.
  split; [exact H|].
  exact (sync_request_calls_completion served echo echo_json [] default_model_name
           default_max_tokens default_num_completions None 0 _ H).
Defined.

End OnScenarios.
